(** * decode_mesytec_vme_data: the word decoder of the mesytec VME tool

    A shallow embedding of [decode_mesytec_vme_word] and of the branch
    selection of [print_decoded_vme_word]
    (decode-mesytec-vme-data/decode_mesytec_vme_data.cc), with the
    properties of the decoder proved over it; further down, the text that
    the renderer prints and the read-decode-print loop of [main].

    A [std::uint32_t] is a [Z] in [0, 2^32).  The operators [&] and [/] of
    the source work on 32-bit unsigned operands and never leave that range,
    so they are [Z.land] and [Z.div]; the narrowing that C++ performs when a
    32-bit value is stored into a [std::uint8_t] or [std::uint16_t] member is
    written out as a reduction modulo [2^8] or [2^16]. *)

From Stdlib Require Import ZArith List Bool Lia Permutation.
From Stdlib Require Import Ascii String.
Import ListNotations.

Local Open Scope Z_scope.

(** ** Machine integers *)

Definition is_u32 (w : Z) : Prop := 0 <= w < 2 ^ 32.

(** Conversion of an unsigned value to an unsigned type of [bits] bits. *)
Definition to_unsigned (bits v : Z) : Z := v mod 2 ^ bits.

(** ** The record, as [struct DecodedVMEDataWord] declares it *)

Record DecodedVMEDataWord : Type := mkDecoded {
  word : Z;                    (* std::uint32_t *)
  header_found : bool;         (* bool : 1 *)
  data_found : bool;
  extended_ts_found : bool;
  fill_word_found : bool;
  eoe_found : bool;
  (* header *)
  data_length : Z;             (* std::uint16_t *)
  module_setting : Z;          (* std::uint8_t *)
  module_id : Z;               (* std::uint8_t *)
  (* data word *)
  channel_address : Z;         (* std::uint8_t *)
  mdpp_flags : Z;              (* std::uint8_t *)
  (* extended timestamp *)
  high_stamp : Z;              (* std::uint16_t *)
  (* EndOfEvent *)
  low_stamp : Z                (* std::uint32_t *)
}.

(** The members of the struct, by name, for the assignments below. *)
Inductive Member : Type :=
  | M_word
  | M_header_found | M_data_found | M_extended_ts_found
  | M_fill_word_found | M_eoe_found
  | M_data_length | M_module_setting | M_module_id
  | M_channel_address | M_mdpp_flags
  | M_high_stamp
  | M_low_stamp.

(** Declared width of each member, in bits. *)
Definition width (m : Member) : Z :=
  match m with
  | M_word | M_low_stamp => 32
  | M_data_length | M_high_stamp => 16
  | M_module_setting | M_module_id | M_channel_address | M_mdpp_flags => 8
  | M_header_found | M_data_found | M_extended_ts_found
  | M_fill_word_found | M_eoe_found => 1
  end.

(** [DecodedVMEDataWord result = {};]: every member zero, every flag false. *)
Definition zero_initialized : DecodedVMEDataWord :=
  mkDecoded 0 false false false false false 0 0 0 0 0 0 0.

(** Reading a member as a number (a flag reads as 0 or 1). *)
Definition member_value (m : Member) (r : DecodedVMEDataWord) : Z :=
  match m with
  | M_word => word r
  | M_header_found => Z.b2z (header_found r)
  | M_data_found => Z.b2z (data_found r)
  | M_extended_ts_found => Z.b2z (extended_ts_found r)
  | M_fill_word_found => Z.b2z (fill_word_found r)
  | M_eoe_found => Z.b2z (eoe_found r)
  | M_data_length => data_length r
  | M_module_setting => module_setting r
  | M_module_id => module_id r
  | M_channel_address => channel_address r
  | M_mdpp_flags => mdpp_flags r
  | M_high_stamp => high_stamp r
  | M_low_stamp => low_stamp r
  end.

(** Storing a 32-bit unsigned value into a member: the value is converted
    to the member's type; a flag receives "value is not zero". *)
Definition store (m : Member) (v : Z) (r : DecodedVMEDataWord)
  : DecodedVMEDataWord :=
  let x := to_unsigned (width m) v in
  let b := negb (v =? 0) in
  match r with
  | mkDecoded w hf df xf ff ef dl ms mi ca fl hs ls =>
    match m with
    | M_word => mkDecoded x hf df xf ff ef dl ms mi ca fl hs ls
    | M_header_found => mkDecoded w b df xf ff ef dl ms mi ca fl hs ls
    | M_data_found => mkDecoded w hf b xf ff ef dl ms mi ca fl hs ls
    | M_extended_ts_found => mkDecoded w hf df b ff ef dl ms mi ca fl hs ls
    | M_fill_word_found => mkDecoded w hf df xf b ef dl ms mi ca fl hs ls
    | M_eoe_found => mkDecoded w hf df xf ff b dl ms mi ca fl hs ls
    | M_data_length => mkDecoded w hf df xf ff ef x ms mi ca fl hs ls
    | M_module_setting => mkDecoded w hf df xf ff ef dl x mi ca fl hs ls
    | M_module_id => mkDecoded w hf df xf ff ef dl ms x ca fl hs ls
    | M_channel_address => mkDecoded w hf df xf ff ef dl ms mi x fl hs ls
    | M_mdpp_flags => mkDecoded w hf df xf ff ef dl ms mi ca x hs ls
    | M_high_stamp => mkDecoded w hf df xf ff ef dl ms mi ca fl x ls
    | M_low_stamp => mkDecoded w hf df xf ff ef dl ms mi ca fl hs x
    end
  end.

(** ** Statements: explicit state passing

    The state of [decode_mesytec_vme_word] is its local [result] together
    with the list of members it has assigned so far, oldest first. *)

Definition State : Type := (DecodedVMEDataWord * list Member)%type.
Definition Stmt : Type := State -> State.

(** [result.m = v;] *)
Definition assign (m : Member) (v : Z) : Stmt :=
  fun st => (store m v (fst st), snd st ++ [m]).

(** [result.m = (comparison);] for the [bool] members. *)
Definition assign_bool (m : Member) (b : bool) : Stmt :=
  assign m (Z.b2z b).

(** [if (result.flag) body] *)
Definition when (flag : DecodedVMEDataWord -> bool) (body : Stmt) : Stmt :=
  fun st => if flag (fst st) then body st else st.

Definition seq (s1 s2 : Stmt) : Stmt := fun st => s2 (s1 st).

Declare Scope stmt_scope.
Delimit Scope stmt_scope with stmt.
Bind Scope stmt_scope with Stmt.
Notation "s1 ;; s2" := (seq s1 s2)
  (at level 61, left associativity) : stmt_scope.

(** ** decode_mesytec_vme_word (lines 56-88) *)

Definition decode_body (word : Z) : Stmt :=
  ( assign M_word word ;;
    assign_bool M_header_found (Z.land word 0xC0000000 =? 0x40000000) ;;
    assign_bool M_data_found
      ((Z.land word 0xF0000000 =? 0x10000000)       (* MDPP *)
       || (Z.land word 0xFF800000 =? 0x04000000)) ;; (* MxDC *)
    assign_bool M_extended_ts_found (Z.land word 0xFF800000 =? 0x04800000) ;;
    assign_bool M_fill_word_found (word =? 0x00000000) ;;
    assign_bool M_eoe_found (Z.land word 0xC0000000 =? 0xC0000000) ;;
    when header_found
      ( assign M_data_length (Z.land word 0x000003FF) ;;
        assign M_module_id (Z.land word 0x00FF0000 / 0x10000) ;;
        assign M_module_setting (Z.land word 0x0000FC00 / 0x400) ) ;;
    when data_found
      ( assign M_channel_address (Z.land word 0x003F0000 / 0x0010000) ;;
        assign M_mdpp_flags (Z.land word 0x0FC00000 / 0x0040000) ) ;;
    when extended_ts_found
      ( assign M_high_stamp (Z.land word 0x0000FFFF) ) ;;
    when eoe_found
      ( assign M_low_stamp (Z.land word 0x3FFFFFFF) )
  )%stmt.

Definition decode_run (word : Z) : State :=
  decode_body word (zero_initialized, []).

Definition decode_mesytec_vme_word (word : Z) : DecodedVMEDataWord :=
  fst (decode_run word).

(** The members assigned by one call, in program order. *)
Definition decode_writes (word : Z) : list Member :=
  snd (decode_run word).

(** ** print_decoded_vme_word (lines 91-116)

    The renderer prints the word in hexadecimal and then at most one
    descriptor; which one, and the members it reads for it, are decided by an
    [if] / [else if] chain over the flags.  A [Descriptor] is the format
    chosen together with the arguments handed to it. *)

Inductive Descriptor : Type :=
  | module_header (module_id module_setting data_length : Z)
  | data_word (channel_address mdpp_flags : Z)
  | extended_ts (high_stamp : Z)
  | end_of_event (low_stamp : Z)
  | fill_word
  | no_descriptor.

Definition print_decoded_vme_word (dw : DecodedVMEDataWord)
  : Z * Descriptor :=
  (word dw,
   if header_found dw then
     module_header (module_id dw) (module_setting dw) (data_length dw)
   else if data_found dw then
     data_word (channel_address dw) (mdpp_flags dw)
   else if extended_ts_found dw then
     extended_ts (high_stamp dw)
   else if eoe_found dw then
     end_of_event (low_stamp dw)
   else if fill_word_found dw then
     fill_word
   else
     no_descriptor).

(** The kinds of record a word can be decoded to. *)
Inductive Kind : Type :=
  | ModuleHeader
  | DataWord
  | ExtendedTimestamp
  | EndOfEvent
  | FillWord
  | Unrecognized.

Definition kind_of (d : Descriptor) : Kind :=
  match d with
  | module_header _ _ _ => ModuleHeader
  | data_word _ _ => DataWord
  | extended_ts _ => ExtendedTimestamp
  | end_of_event _ => EndOfEvent
  | fill_word => FillWord
  | no_descriptor => Unrecognized
  end.

(** The kind selected for a decoded record: the branch the renderer takes. *)
Definition selected_kind (dw : DecodedVMEDataWord) : Kind :=
  kind_of (snd (print_decoded_vme_word dw)).

(** The flag that announces each kind ([Unrecognized] has none). *)
Definition found (k : Kind) (dw : DecodedVMEDataWord) : bool :=
  match k with
  | ModuleHeader => header_found dw
  | DataWord => data_found dw
  | ExtendedTimestamp => extended_ts_found dw
  | EndOfEvent => eoe_found dw
  | FillWord => fill_word_found dw
  | Unrecognized => false
  end.

(** The same chain with its branches tested in an arbitrary order. *)
Fixpoint select_in_order (order : list Kind) (dw : DecodedVMEDataWord)
  : Kind :=
  match order with
  | [] => Unrecognized
  | k :: rest => if found k dw then k else select_in_order rest dw
  end.

Definition renderer_order : list Kind :=
  [ModuleHeader; DataWord; ExtendedTimestamp; EndOfEvent; FillWord].

(** The kind whose payload a member carries; [word] and the flags belong to
    every record. *)
Definition owner (m : Member) : option Kind :=
  match m with
  | M_data_length | M_module_setting | M_module_id => Some ModuleHeader
  | M_channel_address | M_mdpp_flags => Some DataWord
  | M_high_stamp => Some ExtendedTimestamp
  | M_low_stamp => Some EndOfEvent
  | M_word
  | M_header_found | M_data_found | M_extended_ts_found
  | M_fill_word_found | M_eoe_found => None
  end.

Definition payload_members : list Member :=
  [M_data_length; M_module_setting; M_module_id;
   M_channel_address; M_mdpp_flags; M_high_stamp; M_low_stamp].

(** Number of flags set in a record. *)
Definition flags_set (dw : DecodedVMEDataWord) : Z :=
  Z.b2z (header_found dw) + Z.b2z (data_found dw)
  + Z.b2z (extended_ts_found dw) + Z.b2z (fill_word_found dw)
  + Z.b2z (eoe_found dw).

(** Every member holds a value of its declared type. *)
Definition all_members : list Member :=
  [M_word; M_header_found; M_data_found; M_extended_ts_found;
   M_fill_word_found; M_eoe_found] ++ payload_members.

Definition in_range (m : Member) (dw : DecodedVMEDataWord) : bool :=
  (0 <=? member_value m dw) && (member_value m dw <? 2 ^ width m).

Definition well_formed (dw : DecodedVMEDataWord) : bool :=
  forallb (fun m => in_range m dw) all_members.

(** ** The specification's vocabulary

    The five classification predicates and the first-match selection, written
    after the design document (section 4.1), to be compared with the code. *)

Module Spec.

Definition is_header (w : Z) : bool := Z.land w 0xC0000000 =? 0x40000000.
Definition is_data (w : Z) : bool :=
  (Z.land w 0xF0000000 =? 0x10000000) || (Z.land w 0xFF800000 =? 0x04000000).
Definition is_ext_ts (w : Z) : bool := Z.land w 0xFF800000 =? 0x04800000.
Definition is_fill (w : Z) : bool := w =? 0x00000000.
Definition is_eoe (w : Z) : bool := Z.land w 0xC0000000 =? 0xC0000000.

Definition first_match (w : Z) : Kind :=
  if is_header w then ModuleHeader
  else if is_data w then DataWord
  else if is_ext_ts w then ExtendedTimestamp
  else if is_eoe w then EndOfEvent
  else if is_fill w then FillWord
  else Unrecognized.

(** How many of the five predicates a word satisfies. *)
Definition matches (w : Z) : Z :=
  Z.b2z (is_header w) + Z.b2z (is_data w) + Z.b2z (is_ext_ts w)
  + Z.b2z (is_fill w) + Z.b2z (is_eoe w).

End Spec.

(** The weight of the lowest bit set in a mask. *)
Definition lowest_bit (mask : Z) : Z := Z.land mask (- mask).

(** The flags of a word, as the decoder computes them, form one of six
    patterns: none set, or exactly one. *)
Inductive Flags : bool -> bool -> bool -> bool -> bool -> Kind -> Prop :=
  | Flags_header : Flags true false false false false ModuleHeader
  | Flags_data : Flags false true false false false DataWord
  | Flags_ext_ts : Flags false false true false false ExtendedTimestamp
  | Flags_eoe : Flags false false false false true EndOfEvent
  | Flags_fill : Flags false false false true false FillWord
  | Flags_none : Flags false false false false false Unrecognized.

(** ** The kinds as ranges of word values

    The address map that the five patterns induce on the 32-bit words, in
    increasing order of the word; compared with the decoder below. *)

Definition kind_of_range (w : Z) : Kind :=
  if w =? 0 then FillWord
  else if w <? 0x04000000 then Unrecognized
  else if w <? 0x04800000 then DataWord            (* MxDC *)
  else if w <? 0x05000000 then ExtendedTimestamp
  else if w <? 0x10000000 then Unrecognized
  else if w <? 0x20000000 then DataWord            (* MDPP *)
  else if w <? 0x40000000 then Unrecognized
  else if w <? 0x80000000 then ModuleHeader
  else if w <? 0xC0000000 then Unrecognized
  else EndOfEvent.

(** ** The text printed by print_decoded_vme_word (lines 90-116)

    The conversions of [fprintf] that the renderer uses, on lists of
    characters: [%x] (hexadecimal, lower case, no padding), [%08x] and
    [%02x] (padded with zeros to a minimum width), [%d] (decimal, with a
    sign) and [%2d] (padded with spaces to a minimum width).  The 8- and
    16-bit members are promoted to [int] and keep their value; [low_stamp] is
    an unsigned 32-bit member handed to [%d], which reads it as an [int]. *)

Definition text (s : string) : list ascii := list_ascii_of_string s.

Definition newline : ascii := "010"%char.

Definition digit_char (d : Z) : ascii :=
  nth (Z.to_nat d) (text "0123456789abcdef") "0"%char.

(** The digits of [v] in [base], least significant first; a lone zero for
    zero.  [fuel] bounds the number of digits. *)
Fixpoint digits_rev (base : Z) (fuel : nat) (v : Z) : list ascii :=
  match fuel with
  | O => []
  | S fuel' =>
      if v <? base then [digit_char v]
      else digit_char (v mod base) :: digits_rev base fuel' (v / base)
  end.

(** A number has no more digits, in any base from two on, than it has
    bits. *)
Definition digits (base v : Z) : list ascii :=
  rev (digits_rev base (S (Z.to_nat (Z.log2 v))) v).

(** A minimum field width: padding on the left, never truncation. *)
Definition pad (c : ascii) (width : nat) (s : list ascii) : list ascii :=
  repeat c (width - List.length s) ++ s.

(** [%x] *)
Definition fmt_x (v : Z) : list ascii := digits 16 v.

(** [%0Nx] *)
Definition fmt_0x (width : nat) (v : Z) : list ascii :=
  pad "0"%char width (digits 16 v).

(** [%d] *)
Definition fmt_d (v : Z) : list ascii :=
  if v <? 0 then "-"%char :: digits 10 (- v) else digits 10 v.

(** [%Nd] *)
Definition fmt_wd (width : nat) (v : Z) : list ascii :=
  pad " "%char width (fmt_d v).

(** An [unsigned int] read as an [int]. *)
Definition as_int (v : Z) : Z := if v <? 2 ^ 31 then v else v - 2 ^ 32.

(** The format string of each branch, applied to its arguments. *)
Definition format_descriptor (d : Descriptor) : list ascii :=
  match d with
  | module_header mi ms dl =>
      text "module_header, module_id=0x" ++ fmt_0x 2 mi
      ++ text ", module_setting=0x" ++ fmt_x ms
      ++ text ", data_length=" ++ fmt_d dl ++ text " words"
  | data_word ca fl =>
      text "data_word, channel_address=" ++ fmt_wd 2 ca
      ++ text ", mdpp_flags=0x" ++ fmt_x fl
  | extended_ts hs => text "extended_ts, high_stamp=" ++ fmt_d hs
  | end_of_event ls => text "end_of_event, low_stamp=" ++ fmt_d (as_int ls)
  | fill_word => text "fill_word"
  | no_descriptor => []
  end.

(** Everything one call of [print_decoded_vme_word] writes: the word, a
    space, the descriptor of the branch taken, and the end of the line. *)
Definition print_line (dw : DecodedVMEDataWord) : list ascii :=
  let (w, d) := print_decoded_vme_word dw in
  text "0x" ++ fmt_0x 8 w ++ text " " ++ format_descriptor d ++ [newline].

(** ** main (lines 118-132)

    [while (std::cin >> data_word)] decodes and prints each word it reads.
    The extraction is the standard library's; the input is taken as the
    sequence of its outcomes, [Some w] for a 32-bit word read and [None] for
    an extraction that fails (end of input or a token that is no number),
    which ends the loop.  The result is the text written to [stdout]. *)
Fixpoint main (input : list (option Z)) : list ascii :=
  match input with
  | Some w :: rest => print_line (decode_mesytec_vme_word w) ++ main rest
  | _ => []
  end.

(** ** Reading printed numbers

    The value of a digit and of a list of digits, to state what the printed
    text denotes. *)

Fixpoint index_of (c : ascii) (l : list ascii) (i : Z) : Z :=
  match l with
  | [] => i
  | x :: rest => if Ascii.eqb c x then i else index_of c rest (i + 1)
  end.

Definition digit_value (c : ascii) : Z :=
  index_of c (text "0123456789abcdef") 0.

(** Least significant digit first. *)
Fixpoint value_rev (base : Z) (ds : list ascii) : Z :=
  match ds with
  | [] => 0
  | c :: rest => digit_value c + base * value_rev base rest
  end.

(** Most significant digit first, as printed. *)
Definition number_value (base : Z) (ds : list ascii) : Z :=
  value_rev base (rev ds).

(** Characters that neither end a line nor sign a number. *)
Definition plain (c : ascii) : bool :=
  negb (Ascii.eqb c newline) && negb (Ascii.eqb c "-"%char).

(** * Properties *)

(** ** Arithmetic of masks *)

Lemma land_submask (w m m' c : Z) :
  Z.land m m' = m' -> Z.land w m = c -> Z.land w m' = Z.land c m'.
Proof.
  intros Hm Hc. rewrite <- Hc, <- Z.land_assoc, Hm. reflexivity.
Qed.

Lemma land_below_pow2 (w m n : Z) :
  0 <= w -> 0 <= m < 2 ^ n -> 0 <= Z.land w m < 2 ^ n.
Proof.
  intros Hw [Hm Hn].
  assert (Hl : 0 <= Z.land w m) by (apply Z.land_nonneg; now left).
  split; [exact Hl|].
  destruct (Z.eq_dec (Z.land w m) 0) as [E|E]; [rewrite E; lia|].
  destruct (Z.eq_dec m 0) as [->|Em]; [rewrite Z.land_0_r in E; lia|].
  assert (Hn0 : 0 < n).
  { destruct (Z_lt_le_dec 0 n) as [|Hle]; [assumption|].
    assert (2 ^ n <= 1).
    { destruct (Z.eq_dec n 0) as [->|]; [simpl; lia|].
      rewrite Z.pow_neg_r by lia. lia. }
    lia. }
  apply Z.log2_lt_pow2; [lia|].
  pose proof (Z.log2_land w m Hw Hm) as Hlog.
  assert (Z.log2 m < n) by (apply Z.log2_lt_pow2; lia).
  lia.
Qed.

(** ** The record computed by the decoder, in closed form *)

Lemma decode_closed_form (w : Z) :
  decode_mesytec_vme_word w =
  mkDecoded
    (to_unsigned 32 w)
    (Spec.is_header w) (Spec.is_data w) (Spec.is_ext_ts w)
    (Spec.is_fill w) (Spec.is_eoe w)
    (if Spec.is_header w then to_unsigned 16 (Z.land w 0x000003FF) else 0)
    (if Spec.is_header w then to_unsigned 8 (Z.land w 0x0000FC00 / 0x400) else 0)
    (if Spec.is_header w then to_unsigned 8 (Z.land w 0x00FF0000 / 0x10000) else 0)
    (if Spec.is_data w then to_unsigned 8 (Z.land w 0x003F0000 / 0x0010000) else 0)
    (if Spec.is_data w then to_unsigned 8 (Z.land w 0x0FC00000 / 0x0040000) else 0)
    (if Spec.is_ext_ts w then to_unsigned 16 (Z.land w 0x0000FFFF) else 0)
    (if Spec.is_eoe w then to_unsigned 32 (Z.land w 0x3FFFFFFF) else 0).
Proof.
  cbv [decode_mesytec_vme_word decode_run decode_body seq when assign
       assign_bool store fst snd zero_initialized width
       header_found data_found extended_ts_found eoe_found
       Spec.is_header Spec.is_data Spec.is_ext_ts Spec.is_fill Spec.is_eoe].
  destruct (Z.land w 3221225472 =? 1073741824);
  destruct (Z.land w 4026531840 =? 268435456);
  destruct (Z.land w 4286578688 =? 67108864);
  destruct (Z.land w 4286578688 =? 75497472);
  destruct (w =? 0);
  destruct (Z.land w 3221225472 =? 3221225472);
  reflexivity.
Qed.

Lemma decode_writes_closed_form (w : Z) :
  decode_writes w =
  [M_word; M_header_found; M_data_found; M_extended_ts_found;
   M_fill_word_found; M_eoe_found]
  ++ (if Spec.is_header w
      then [M_data_length; M_module_id; M_module_setting] else [])
  ++ (if Spec.is_data w then [M_channel_address; M_mdpp_flags] else [])
  ++ (if Spec.is_ext_ts w then [M_high_stamp] else [])
  ++ (if Spec.is_eoe w then [M_low_stamp] else []).
Proof.
  cbv [decode_writes decode_run decode_body seq when assign
       assign_bool store fst snd zero_initialized width app
       header_found data_found extended_ts_found eoe_found
       Spec.is_header Spec.is_data Spec.is_ext_ts Spec.is_fill Spec.is_eoe].
  destruct (Z.land w 3221225472 =? 1073741824);
  destruct (Z.land w 4026531840 =? 268435456);
  destruct (Z.land w 4286578688 =? 67108864);
  destruct (Z.land w 4286578688 =? 75497472);
  destruct (w =? 0);
  destruct (Z.land w 3221225472 =? 3221225472);
  reflexivity.
Qed.

(** ** The five patterns exclude one another

    Each pattern fixes the two top bits of the word (header 01, end of event
    11, the others 00), the MDPP pattern fixes the top nibble to 0001 where
    the MxDC and timestamp patterns have 0000, and those two differ in
    bit 23; the fill word has no bit set. *)

Lemma mdpp_top2 (w : Z) :
  Z.land w 0xF0000000 = 0x10000000 -> Z.land w 0xC0000000 = 0.
Proof. intro H. exact (land_submask w 0xF0000000 0xC0000000 _ eq_refl H). Qed.

Lemma mxdc_top2 (w : Z) :
  Z.land w 0xFF800000 = 0x04000000 -> Z.land w 0xC0000000 = 0.
Proof. intro H. exact (land_submask w 0xFF800000 0xC0000000 _ eq_refl H). Qed.

Lemma ext_ts_top2 (w : Z) :
  Z.land w 0xFF800000 = 0x04800000 -> Z.land w 0xC0000000 = 0.
Proof. intro H. exact (land_submask w 0xFF800000 0xC0000000 _ eq_refl H). Qed.

Lemma ext_ts_top4 (w : Z) :
  Z.land w 0xFF800000 = 0x04800000 -> Z.land w 0xF0000000 = 0.
Proof. intro H. exact (land_submask w 0xFF800000 0xF0000000 _ eq_refl H). Qed.

(** Turns the boolean tests of the goal into equations and looks for two of
    them that disagree on a common part of their masks. *)
Ltac mask_clash :=
  exfalso;
  repeat match goal with
  | H : ?w = 0 |- _ => subst w; cbn in *
  end;
  try discriminate;
  try congruence;
  repeat match goal with
  | H : Z.land ?w 4286578688 = 75497472 |- _ =>
      pose proof (ext_ts_top2 w H); pose proof (ext_ts_top4 w H); clear H
  end;
  try congruence;
  repeat match goal with
  | H : Z.land ?w 4026531840 = 268435456 |- _ =>
      pose proof (mdpp_top2 w H); clear H
  | H : Z.land ?w 4286578688 = 67108864 |- _ =>
      pose proof (mxdc_top2 w H); clear H
  end;
  congruence.

Lemma header_excludes (w : Z) :
  Spec.is_header w = true ->
  Spec.is_data w = false /\ Spec.is_ext_ts w = false
  /\ Spec.is_fill w = false /\ Spec.is_eoe w = false.
Proof.
  unfold Spec.is_header, Spec.is_data, Spec.is_ext_ts, Spec.is_fill,
    Spec.is_eoe.
  intros Hh%Z.eqb_eq.
  repeat split;
    try (apply orb_false_intro);
    apply not_true_is_false; intros E%Z.eqb_eq; mask_clash.
Qed.

Lemma data_excludes (w : Z) :
  Spec.is_data w = true ->
  Spec.is_header w = false /\ Spec.is_ext_ts w = false
  /\ Spec.is_fill w = false /\ Spec.is_eoe w = false.
Proof.
  unfold Spec.is_header, Spec.is_data, Spec.is_ext_ts, Spec.is_fill,
    Spec.is_eoe.
  intros [Hd%Z.eqb_eq | Hd%Z.eqb_eq]%orb_true_iff;
    (repeat split; apply not_true_is_false; intros E%Z.eqb_eq; mask_clash).
Qed.

Lemma ext_ts_excludes (w : Z) :
  Spec.is_ext_ts w = true ->
  Spec.is_header w = false /\ Spec.is_data w = false
  /\ Spec.is_fill w = false /\ Spec.is_eoe w = false.
Proof.
  intro Hx.
  destruct (Spec.is_header w) eqn:Hh;
    [apply header_excludes in Hh; destruct Hh as (_ & Hh & _); congruence|].
  destruct (Spec.is_data w) eqn:Hd;
    [apply data_excludes in Hd; destruct Hd as (_ & Hd & _); congruence|].
  revert Hx. unfold Spec.is_ext_ts, Spec.is_fill, Spec.is_eoe.
  intros Hx%Z.eqb_eq.
  repeat split; apply not_true_is_false; intros E%Z.eqb_eq; mask_clash.
Qed.

Lemma eoe_excludes_fill (w : Z) :
  Spec.is_eoe w = true -> Spec.is_fill w = false.
Proof.
  unfold Spec.is_fill, Spec.is_eoe. intros He%Z.eqb_eq.
  apply not_true_is_false; intros E%Z.eqb_eq; mask_clash.
Qed.

Lemma flags_of_word (w : Z) :
  Flags (Spec.is_header w) (Spec.is_data w) (Spec.is_ext_ts w)
        (Spec.is_fill w) (Spec.is_eoe w) (Spec.first_match w).
Proof.
  unfold Spec.first_match.
  destruct (Spec.is_header w) eqn:Hh.
  { destruct (header_excludes w Hh) as (-> & -> & -> & ->). constructor. }
  destruct (Spec.is_data w) eqn:Hd.
  { destruct (data_excludes w Hd) as (_ & -> & -> & ->). constructor. }
  destruct (Spec.is_ext_ts w) eqn:Hx.
  { destruct (ext_ts_excludes w Hx) as (_ & _ & -> & ->). constructor. }
  destruct (Spec.is_eoe w) eqn:He.
  { rewrite (eoe_excludes_fill w He). constructor. }
  destruct (Spec.is_fill w); constructor.
Qed.

(** ** Selection *)

Lemma selected_kind_closed_form (w : Z) :
  selected_kind (decode_mesytec_vme_word w) = Spec.first_match w.
Proof.
  rewrite decode_closed_form.
  unfold selected_kind, print_decoded_vme_word, Spec.first_match.
  cbn [snd header_found data_found extended_ts_found eoe_found
       fill_word_found].
  destruct (Spec.is_header w), (Spec.is_data w), (Spec.is_ext_ts w),
    (Spec.is_eoe w), (Spec.is_fill w); reflexivity.
Qed.

(** Replaces the decoder's result, its write list and the selected kind by
    their closed forms, and splits on the six flag patterns. *)
Ltac by_flag_pattern w :=
  rewrite ?selected_kind_closed_form, ?decode_writes_closed_form,
    ?decode_closed_form;
  let F := fresh "F" in
  pose proof (flags_of_word w) as F;
  let h := fresh "h" in let d := fresh "d" in let x := fresh "x" in
  let f := fresh "f" in let e := fresh "e" in let k := fresh "k" in
  remember (Spec.is_header w) as h;
  remember (Spec.is_data w) as d;
  remember (Spec.is_ext_ts w) as x;
  remember (Spec.is_fill w) as f;
  remember (Spec.is_eoe w) as e;
  remember (Spec.first_match w) as k;
  destruct F.

(** C1: for every 32-bit word the five flags computed by the decoder are the
    five classification predicates of the design, and the kind selected by
    the renderer is the first match in the order header, data, extended
    timestamp, end of event, fill, else Unrecognized; so a word matching
    [is_header] yields ModuleHeader whatever else it matches, and likewise
    down the chain. *)
Theorem first_match_selection (w : Z) :
  is_u32 w ->
  let dw := decode_mesytec_vme_word w in
  header_found dw = Spec.is_header w
  /\ data_found dw = Spec.is_data w
  /\ extended_ts_found dw = Spec.is_ext_ts w
  /\ fill_word_found dw = Spec.is_fill w
  /\ eoe_found dw = Spec.is_eoe w
  /\ selected_kind dw = Spec.first_match w
  /\ (Spec.is_header w = true -> selected_kind dw = ModuleHeader)
  /\ (Spec.is_header w = false -> Spec.is_data w = true ->
      selected_kind dw = DataWord)
  /\ (Spec.is_header w = false -> Spec.is_data w = false ->
      Spec.is_ext_ts w = true -> selected_kind dw = ExtendedTimestamp)
  /\ (Spec.is_header w = false -> Spec.is_data w = false ->
      Spec.is_ext_ts w = false -> Spec.is_eoe w = true ->
      selected_kind dw = EndOfEvent)
  /\ (Spec.is_header w = false -> Spec.is_data w = false ->
      Spec.is_ext_ts w = false -> Spec.is_eoe w = false ->
      Spec.is_fill w = true -> selected_kind dw = FillWord)
  /\ (Spec.is_header w = false -> Spec.is_data w = false ->
      Spec.is_ext_ts w = false -> Spec.is_eoe w = false ->
      Spec.is_fill w = false -> selected_kind dw = Unrecognized).
Proof.
  intros _ dw. subst dw.
  rewrite selected_kind_closed_form, decode_closed_form.
  cbn [header_found data_found extended_ts_found eoe_found fill_word_found].
  unfold Spec.first_match.
  repeat split; try reflexivity; intros; 
    repeat match goal with H : _ = _ |- _ => rewrite H end; reflexivity.
Qed.

Lemma first_match_selection_witness :
  is_u32 0x04800057
  /\ let dw := decode_mesytec_vme_word 0x04800057 in
     header_found dw = Spec.is_header 0x04800057
     /\ data_found dw = Spec.is_data 0x04800057
     /\ extended_ts_found dw = Spec.is_ext_ts 0x04800057
     /\ fill_word_found dw = Spec.is_fill 0x04800057
     /\ eoe_found dw = Spec.is_eoe 0x04800057
     /\ selected_kind dw = Spec.first_match 0x04800057
     /\ (Spec.is_header 0x04800057 = true -> selected_kind dw = ModuleHeader)
     /\ (Spec.is_header 0x04800057 = false ->
         Spec.is_data 0x04800057 = true ->
         selected_kind dw = DataWord)
     /\ (Spec.is_header 0x04800057 = false ->
         Spec.is_data 0x04800057 = false ->
         Spec.is_ext_ts 0x04800057 = true ->
         selected_kind dw = ExtendedTimestamp)
     /\ (Spec.is_header 0x04800057 = false ->
         Spec.is_data 0x04800057 = false ->
         Spec.is_ext_ts 0x04800057 = false ->
         Spec.is_eoe 0x04800057 = true ->
         selected_kind dw = EndOfEvent)
     /\ (Spec.is_header 0x04800057 = false ->
         Spec.is_data 0x04800057 = false ->
         Spec.is_ext_ts 0x04800057 = false ->
         Spec.is_eoe 0x04800057 = false ->
         Spec.is_fill 0x04800057 = true -> selected_kind dw = FillWord)
     /\ (Spec.is_header 0x04800057 = false ->
         Spec.is_data 0x04800057 = false ->
         Spec.is_ext_ts 0x04800057 = false ->
         Spec.is_eoe 0x04800057 = false ->
         Spec.is_fill 0x04800057 = false ->
         selected_kind dw = Unrecognized).
Proof.
  assert (H : is_u32 0x04800057) by (unfold is_u32; lia).
  split; [exact H|].
  exact (first_match_selection 0x04800057 H).
Defined.

(** The third link of the chain is taken by a concrete word: no header, no
    data, but an extended timestamp. *)
Example ext_ts_branch_taken :
  Spec.is_header 0x04800057 = false
  /\ Spec.is_data 0x04800057 = false
  /\ Spec.is_ext_ts 0x04800057 = true
  /\ selected_kind (decode_mesytec_vme_word 0x04800057) = ExtendedTimestamp.
Proof. repeat split. Qed.

(** ** Exclusivity *)

Lemma matches_at_most_one (w : Z) : Spec.matches w <= 1.
Proof.
  unfold Spec.matches. pose proof (flags_of_word w) as F.
  remember (Spec.is_header w) as h. remember (Spec.is_data w) as d.
  remember (Spec.is_ext_ts w) as x. remember (Spec.is_fill w) as f.
  remember (Spec.is_eoe w) as e. remember (Spec.first_match w) as k.
  destruct F; simpl; lia.
Qed.

Lemma found_selected (w : Z) (k : Kind) :
  found k (decode_mesytec_vme_word w) = true ->
  k = selected_kind (decode_mesytec_vme_word w).
Proof.
  by_flag_pattern w; destruct k; cbn; congruence.
Qed.

Lemma select_unique (order : list Kind) (dw : DecodedVMEDataWord) (k : Kind) :
  (forall k', found k' dw = true -> k' = k) ->
  found k dw = true -> In k order ->
  select_in_order order dw = k.
Proof.
  intros Huniq Hk. induction order as [|k' rest IH]; intros Hin.
  - destruct Hin.
  - cbn [select_in_order]. destruct (found k' dw) eqn:E.
    + now apply Huniq.
    + destruct Hin as [->|Hin]; [congruence | now apply IH].
Qed.

Lemma select_none (order : list Kind) (dw : DecodedVMEDataWord) :
  (forall k, found k dw = false) ->
  select_in_order order dw = Unrecognized.
Proof.
  intros Hnone. induction order as [|k rest IH]; [reflexivity|].
  cbn [select_in_order]. now rewrite Hnone.
Qed.

Lemma selected_found (w : Z) :
  let dw := decode_mesytec_vme_word w in
  selected_kind dw = Unrecognized /\ (forall k, found k dw = false)
  \/ selected_kind dw <> Unrecognized /\ found (selected_kind dw) dw = true.
Proof.
  cbv zeta. by_flag_pattern w;
    solve [ right; split; [discriminate | reflexivity]
          | left; split; [reflexivity | intros []; reflexivity] ].
Qed.

Lemma renderer_order_selects (dw : DecodedVMEDataWord) :
  select_in_order renderer_order dw = selected_kind dw.
Proof.
  unfold selected_kind, print_decoded_vme_word. cbn.
  destruct (header_found dw), (data_found dw), (extended_ts_found dw),
    (eoe_found dw), (fill_word_found dw); reflexivity.
Qed.

(** C7: for every 32-bit word at most one of the five predicates holds; so
    the decoded record has at most one flag set, no two different flags are
    set together, and testing the five branches in any order selects the
    same kind as the order of the renderer. *)
Theorem patterns_mutually_exclusive (w : Z) :
  is_u32 w ->
  let dw := decode_mesytec_vme_word w in
  Spec.matches w <= 1
  /\ flags_set dw <= 1
  /\ (forall k1 k2, found k1 dw = true -> found k2 dw = true -> k1 = k2)
  /\ (forall order, Permutation renderer_order order ->
      select_in_order order dw = selected_kind dw).
Proof.
  intros _ dw. subst dw. split; [apply matches_at_most_one|].
  split.
  { pose proof (matches_at_most_one w) as Hm. revert Hm.
    rewrite decode_closed_form. unfold Spec.matches, flags_set.
    cbn [header_found data_found extended_ts_found eoe_found
         fill_word_found]. lia. }
  split.
  { intros k1 k2 H1 H2.
    rewrite (found_selected w k1 H1), (found_selected w k2 H2).
    reflexivity. }
  intros order Hperm.
  destruct (selected_found w) as [[Hk Hnone] | [Hk Hfound]].
  - rewrite Hk. now apply select_none.
  - apply select_unique.
    + intros k' Hk'. now apply found_selected.
    + exact Hfound.
    + apply (Permutation_in _ Hperm).
      destruct (selected_kind (decode_mesytec_vme_word w));
        cbn; tauto.
Qed.

Lemma patterns_mutually_exclusive_witness :
  is_u32 0x40010c07
  /\ let dw := decode_mesytec_vme_word 0x40010c07 in
     Spec.matches 0x40010c07 <= 1
     /\ flags_set dw <= 1
     /\ (forall k1 k2, found k1 dw = true -> found k2 dw = true -> k1 = k2)
     /\ (forall order, Permutation renderer_order order ->
         select_in_order order dw = selected_kind dw).
Proof.
  assert (H : is_u32 0x40010c07) by (unfold is_u32; lia).
  split; [exact H|].
  exact (patterns_mutually_exclusive 0x40010c07 H).
Defined.

(** A reordered chain on a concrete header word: fill first, header last. *)
Example reordered_chain_same_kind :
  select_in_order
    [FillWord; EndOfEvent; ExtendedTimestamp; DataWord; ModuleHeader]
    (decode_mesytec_vme_word 0x40010c07) = ModuleHeader.
Proof. reflexivity. Qed.

(** C6 as stated fails: there is no 32-bit word that satisfies two or more
    of the five predicates. *)
Lemma no_word_matches_two_patterns :
  ~ exists w, is_u32 w /\ 2 <= Spec.matches w.
Proof.
  intros (w & _ & H). pose proof (matches_at_most_one w). lia.
Qed.

(** C6, amended: the predicates do not overlap; for every 32-bit word no two
    of the five predicates hold together. *)
Theorem patterns_do_not_overlap (w : Z) :
  is_u32 w ->
  Spec.is_header w && Spec.is_data w = false
  /\ Spec.is_header w && Spec.is_ext_ts w = false
  /\ Spec.is_header w && Spec.is_fill w = false
  /\ Spec.is_header w && Spec.is_eoe w = false
  /\ Spec.is_data w && Spec.is_ext_ts w = false
  /\ Spec.is_data w && Spec.is_fill w = false
  /\ Spec.is_data w && Spec.is_eoe w = false
  /\ Spec.is_ext_ts w && Spec.is_fill w = false
  /\ Spec.is_ext_ts w && Spec.is_eoe w = false
  /\ Spec.is_fill w && Spec.is_eoe w = false.
Proof.
  intros _. pose proof (flags_of_word w) as F.
  remember (Spec.is_header w) as h. remember (Spec.is_data w) as d.
  remember (Spec.is_ext_ts w) as x. remember (Spec.is_fill w) as f.
  remember (Spec.is_eoe w) as e. remember (Spec.first_match w) as k.
  destruct F; repeat split.
Qed.

Lemma patterns_do_not_overlap_witness :
  is_u32 0x04000000
  /\ Spec.is_header 0x04000000 && Spec.is_data 0x04000000 = false
  /\ Spec.is_header 0x04000000 && Spec.is_ext_ts 0x04000000 = false
  /\ Spec.is_header 0x04000000 && Spec.is_fill 0x04000000 = false
  /\ Spec.is_header 0x04000000 && Spec.is_eoe 0x04000000 = false
  /\ Spec.is_data 0x04000000 && Spec.is_ext_ts 0x04000000 = false
  /\ Spec.is_data 0x04000000 && Spec.is_fill 0x04000000 = false
  /\ Spec.is_data 0x04000000 && Spec.is_eoe 0x04000000 = false
  /\ Spec.is_ext_ts 0x04000000 && Spec.is_fill 0x04000000 = false
  /\ Spec.is_ext_ts 0x04000000 && Spec.is_eoe 0x04000000 = false
  /\ Spec.is_fill 0x04000000 && Spec.is_eoe 0x04000000 = false.
Proof.
  assert (H : is_u32 0x04000000) by (unfold is_u32; lia).
  split; [exact H|].
  exact (patterns_do_not_overlap 0x04000000 H).
Defined.

(** The two patterns that share the top byte 0x04 test the same nine bits
    and are told apart by bit 23. *)
Example mxdc_and_ext_ts_differ_in_bit_23 :
  Spec.is_data 0x04000000 = true /\ Spec.is_ext_ts 0x04000000 = false
  /\ Spec.is_data 0x04800000 = false /\ Spec.is_ext_ts 0x04800000 = true
  /\ Z.lxor 0x04000000 0x04800000 = 2 ^ 23.
Proof. repeat split. Qed.

(** ** Totality and the raw word *)

Lemma to_unsigned_range (bits v : Z) :
  0 <= bits -> 0 <= to_unsigned bits v < 2 ^ bits.
Proof.
  intros Hb. unfold to_unsigned. apply Z.mod_pos_bound.
  now apply Z.pow_pos_nonneg.
Qed.

Lemma in_range_intro (m : Member) (dw : DecodedVMEDataWord) :
  0 <= member_value m dw < 2 ^ width m -> in_range m dw = true.
Proof.
  intros [Hlo Hhi]. unfold in_range.
  apply andb_true_intro; split; [now apply Z.leb_le | now apply Z.ltb_lt].
Qed.

Lemma in_range_decode (w : Z) (m : Member) :
  in_range m (decode_mesytec_vme_word w) = true.
Proof.
  apply in_range_intro. rewrite decode_closed_form.
  destruct m; cbv [member_value width word header_found data_found
    extended_ts_found fill_word_found eoe_found data_length module_setting
    module_id channel_address mdpp_flags high_stamp low_stamp];
    try match goal with
    | |- context [if ?b then _ else _] => destruct b
    | |- context [Z.b2z ?b] => destruct b; cbv [Z.b2z]
    end;
    solve [apply to_unsigned_range; lia | lia].
Qed.

(** C8: the decoder is total; for every 32-bit word it returns a record
    whose members all hold values of their declared types, exactly one kind
    is selected for it, the flag of a kind is set exactly when that kind is
    selected, and a word matching none of the five patterns is Unrecognized
    (and only such a word). *)
Theorem decode_total (w : Z) :
  is_u32 w ->
  exists dw,
    decode_mesytec_vme_word w = dw
    /\ well_formed dw = true
    /\ (exists! k, selected_kind dw = k)
    /\ (forall k, k <> Unrecognized ->
        (found k dw = true <-> selected_kind dw = k))
    /\ (selected_kind dw = Unrecognized <->
        Spec.is_header w = false /\ Spec.is_data w = false
        /\ Spec.is_ext_ts w = false /\ Spec.is_eoe w = false
        /\ Spec.is_fill w = false).
Proof.
  intros _. exists (decode_mesytec_vme_word w).
  split; [reflexivity|].
  split.
  { unfold well_formed. apply forallb_forall. intros m _.
    apply in_range_decode. }
  split.
  { exists (selected_kind (decode_mesytec_vme_word w)).
    split; [reflexivity | now intros k' <-]. }
  split.
  { intros k Hk. split.
    - intros Hf. symmetry. now apply found_selected.
    - intros <-. destruct (selected_found w) as [[Hu _] | [_ Hf]];
        [contradiction | exact Hf]. }
  by_flag_pattern w; split; intros H;
    try discriminate; try (repeat split; reflexivity);
    destruct H as (? & ? & ? & ? & ?); discriminate.
Qed.

Lemma decode_total_witness :
  is_u32 0x20000000
  /\ exists dw,
       decode_mesytec_vme_word 0x20000000 = dw
       /\ well_formed dw = true
       /\ (exists! k, selected_kind dw = k)
       /\ (forall k, k <> Unrecognized ->
           (found k dw = true <-> selected_kind dw = k))
       /\ (selected_kind dw = Unrecognized <->
           Spec.is_header 0x20000000 = false
           /\ Spec.is_data 0x20000000 = false
           /\ Spec.is_ext_ts 0x20000000 = false
           /\ Spec.is_eoe 0x20000000 = false
           /\ Spec.is_fill 0x20000000 = false).
Proof.
  assert (H : is_u32 0x20000000) by (unfold is_u32; lia).
  split; [exact H|].
  exact (decode_total 0x20000000 H).
Defined.

(** C10: the record returned for a 32-bit word carries that word unchanged,
    whichever kind is selected, and the renderer prints it. *)
Theorem word_preserved (w : Z) :
  is_u32 w ->
  word (decode_mesytec_vme_word w) = w
  /\ fst (print_decoded_vme_word (decode_mesytec_vme_word w)) = w.
Proof.
  intros Hw. rewrite decode_closed_form. cbn [fst print_decoded_vme_word word].
  unfold to_unsigned. rewrite Z.mod_small by exact Hw. split; reflexivity.
Qed.

Lemma word_preserved_witness :
  is_u32 0x20000000
  /\ word (decode_mesytec_vme_word 0x20000000) = 0x20000000
  /\ fst (print_decoded_vme_word (decode_mesytec_vme_word 0x20000000))
     = 0x20000000.
Proof.
  assert (H : is_u32 0x20000000) by (unfold is_u32; lia).
  split; [exact H|].
  exact (word_preserved 0x20000000 H).
Defined.

(** ** Field isolation *)

(** C9: for every 32-bit word the decoder assigns, among the members that
    carry the payload of a kind, only those of the selected kind; a member
    owned by any other kind is not in the list of assignments and still holds
    the value of the zero initialization. *)
Theorem field_isolation (w : Z) :
  is_u32 w ->
  let dw := decode_mesytec_vme_word w in
  (forall m k, In m (decode_writes w) -> owner m = Some k ->
     selected_kind dw = k)
  /\ (forall m k, owner m = Some k -> selected_kind dw <> k ->
        ~ In m (decode_writes w)
        /\ member_value m dw = member_value m zero_initialized).
Proof.
  intros _. cbv zeta.
  by_flag_pattern w; (split; intros m k'; destruct m;
    cbv [In app owner member_value zero_initialized data_length
         module_setting module_id channel_address mdpp_flags high_stamp
         low_stamp];
    intros;
    solve [ congruence
          | intuition congruence
          | split; [intuition discriminate | reflexivity] ]).
Qed.

Lemma field_isolation_witness :
  is_u32 0x40010c07
  /\ let dw := decode_mesytec_vme_word 0x40010c07 in
     (forall m k, In m (decode_writes 0x40010c07) -> owner m = Some k ->
        selected_kind dw = k)
     /\ (forall m k, owner m = Some k -> selected_kind dw <> k ->
           ~ In m (decode_writes 0x40010c07)
           /\ member_value m dw = member_value m zero_initialized).
Proof.
  assert (H : is_u32 0x40010c07) by (unfold is_u32; lia).
  split; [exact H|].
  exact (field_isolation 0x40010c07 H).
Defined.

(** The assignments made for a header word, and the members left alone. *)
Example header_word_writes :
  decode_writes 0x40010c07 =
    [M_word; M_header_found; M_data_found; M_extended_ts_found;
     M_fill_word_found; M_eoe_found;
     M_data_length; M_module_id; M_module_setting]
  /\ channel_address (decode_mesytec_vme_word 0x40010c07) = 0
  /\ mdpp_flags (decode_mesytec_vme_word 0x40010c07) = 0
  /\ high_stamp (decode_mesytec_vme_word 0x40010c07) = 0
  /\ low_stamp (decode_mesytec_vme_word 0x40010c07) = 0.
Proof. repeat split. Qed.

(** ** Field extraction *)

Lemma to_unsigned_small (bits v : Z) :
  0 <= v < 2 ^ bits -> to_unsigned bits v = v.
Proof. intros H. unfold to_unsigned. now apply Z.mod_small. Qed.

(** A masked word divided by the weight of the lowest bit of interest is the
    masked word shifted right, and it needs no more bits than the mask has
    above that position. *)
Lemma masked_quotient (w mask shift bits : Z) :
  0 <= w -> 0 <= shift -> 0 <= bits -> 0 <= mask < 2 ^ (shift + bits) ->
  Z.land w mask / 2 ^ shift = Z.shiftr (Z.land w mask) shift
  /\ 0 <= Z.shiftr (Z.land w mask) shift < 2 ^ bits.
Proof.
  intros Hw Hs Hb Hm.
  pose proof (land_below_pow2 w mask (shift + bits) Hw Hm) as [Hlo Hhi].
  rewrite Z.shiftr_div_pow2 by exact Hs.
  assert (Hp : 0 < 2 ^ shift) by now apply Z.pow_pos_nonneg.
  split; [reflexivity|]. split.
  - now apply Z.div_pos.
  - apply Z.div_lt_upper_bound; [exact Hp|].
    now rewrite <- Z.pow_add_r.
Qed.

Lemma stored_quotient (width w mask shift bits : Z) :
  is_u32 w -> 0 <= shift -> 0 <= bits <= width ->
  0 <= mask < 2 ^ (shift + bits) ->
  to_unsigned width (Z.land w mask / 2 ^ shift)
    = Z.shiftr (Z.land w mask) shift
  /\ 0 <= to_unsigned width (Z.land w mask / 2 ^ shift) < 2 ^ bits.
Proof.
  intros [Hw _] Hs [Hb Hbw] Hm.
  destruct (masked_quotient w mask shift bits Hw Hs Hb Hm) as [E [Hlo Hhi]].
  assert (Hle : 2 ^ bits <= 2 ^ width) by (apply Z.pow_le_mono_r; lia).
  rewrite to_unsigned_small by (rewrite E; lia).
  rewrite E. repeat split; assumption.
Qed.

Lemma stored_mask (width w mask bits : Z) :
  is_u32 w -> 0 <= bits <= width -> 0 <= mask < 2 ^ bits ->
  to_unsigned width (Z.land w mask) = Z.land w mask
  /\ 0 <= to_unsigned width (Z.land w mask) < 2 ^ bits.
Proof.
  intros [Hw _] [Hb Hbw] Hm.
  pose proof (land_below_pow2 w mask bits Hw Hm) as [Hlo Hhi].
  assert (Hle : 2 ^ bits <= 2 ^ width) by (apply Z.pow_le_mono_r; lia).
  rewrite to_unsigned_small by lia. repeat split; assumption.
Qed.

(** C4: for every 32-bit word the members of the selected kind, [mdpp_flags]
    apart, hold the masked and shifted bits of the table, and each fits the
    width the design gives it, so the store into the member loses nothing:
    [data_length] 10 bits, [module_id] 8, [module_setting] 6,
    [channel_address] 6, [high_stamp] 16, [low_stamp] 30. *)
Theorem fields_extracted (w : Z) :
  is_u32 w ->
  let dw := decode_mesytec_vme_word w in
  match selected_kind dw with
  | ModuleHeader =>
      (data_length dw = Z.land w 0x000003FF
       /\ 0 <= data_length dw < 2 ^ 10)
      /\ (module_id dw = Z.shiftr (Z.land w 0x00FF0000) 16
          /\ 0 <= module_id dw < 2 ^ 8)
      /\ (module_setting dw = Z.shiftr (Z.land w 0x0000FC00) 10
          /\ 0 <= module_setting dw < 2 ^ 6)
  | DataWord =>
      channel_address dw = Z.shiftr (Z.land w 0x003F0000) 16
      /\ 0 <= channel_address dw < 2 ^ 6
  | ExtendedTimestamp =>
      high_stamp dw = Z.land w 0x0000FFFF
      /\ 0 <= high_stamp dw < 2 ^ 16
  | EndOfEvent =>
      low_stamp dw = Z.land w 0x3FFFFFFF
      /\ 0 <= low_stamp dw < 2 ^ 30
  | FillWord | Unrecognized => True
  end.
Proof.
  intros Hw. cbv zeta.
  by_flag_pattern w;
    cbv [data_length module_setting module_id channel_address high_stamp
         low_stamp].
  - split; [|split].
    + apply (stored_mask 16 w 0x000003FF 10 Hw); lia.
    + apply (stored_quotient 8 w 0x00FF0000 16 8 Hw); lia.
    + apply (stored_quotient 8 w 0x0000FC00 10 6 Hw); lia.
  - apply (stored_quotient 8 w 0x003F0000 16 6 Hw); lia.
  - apply (stored_mask 16 w 0x0000FFFF 16 Hw); lia.
  - apply (stored_mask 32 w 0x3FFFFFFF 30 Hw); lia.
  - exact I.
  - exact I.
Qed.

Lemma fields_extracted_witness :
  is_u32 0x40010c07
  /\ let dw := decode_mesytec_vme_word 0x40010c07 in
     match selected_kind dw with
     | ModuleHeader =>
         (data_length dw = Z.land 0x40010c07 0x000003FF
          /\ 0 <= data_length dw < 2 ^ 10)
         /\ (module_id dw = Z.shiftr (Z.land 0x40010c07 0x00FF0000) 16
             /\ 0 <= module_id dw < 2 ^ 8)
         /\ (module_setting dw = Z.shiftr (Z.land 0x40010c07 0x0000FC00) 10
             /\ 0 <= module_setting dw < 2 ^ 6)
     | DataWord =>
         channel_address dw = Z.shiftr (Z.land 0x40010c07 0x003F0000) 16
         /\ 0 <= channel_address dw < 2 ^ 6
     | ExtendedTimestamp =>
         high_stamp dw = Z.land 0x40010c07 0x0000FFFF
         /\ 0 <= high_stamp dw < 2 ^ 16
     | EndOfEvent =>
         low_stamp dw = Z.land 0x40010c07 0x3FFFFFFF
         /\ 0 <= low_stamp dw < 2 ^ 30
     | FillWord | Unrecognized => True
     end.
Proof.
  assert (H : is_u32 0x40010c07) by (unfold is_u32; lia).
  split; [exact H|].
  exact (fields_extracted 0x40010c07 H).
Defined.

(** ** The scenarios of the design document *)

(** C5: the eight words of section 8 decode to the stated kinds and field
    values. *)
Theorem concrete_scenarios :
  (let dw := decode_mesytec_vme_word 0x40010c07 in
   selected_kind dw = ModuleHeader
   /\ module_id dw = 0x01 /\ module_setting dw = 0x3 /\ data_length dw = 7)
  /\ (let dw := decode_mesytec_vme_word 0x10100868 in
      selected_kind dw = DataWord
      /\ channel_address dw = 16 /\ mdpp_flags dw = 0x0)
  /\ (let dw := decode_mesytec_vme_word 0x1000036e in
      selected_kind dw = DataWord
      /\ channel_address dw = 0 /\ mdpp_flags dw = 0x0)
  /\ (let dw := decode_mesytec_vme_word 0x103002aa in
      selected_kind dw = DataWord
      /\ channel_address dw = 48 /\ mdpp_flags dw = 0x0)
  /\ (let dw := decode_mesytec_vme_word 0xc18d01bd in
      selected_kind dw = EndOfEvent /\ low_stamp dw = 26018237)
  /\ selected_kind (decode_mesytec_vme_word 0x00000000) = FillWord
  /\ (let dw := decode_mesytec_vme_word 0x04800057 in
      selected_kind dw = ExtendedTimestamp /\ high_stamp dw = 0x0057)
  /\ selected_kind (decode_mesytec_vme_word 0x20000000) = Unrecognized.
Proof. cbv zeta. repeat split. Qed.

(** The same scenarios as the renderer sees them: the word printed and the
    descriptor with its arguments. *)
Example concrete_scenarios_rendered :
  map (fun w => print_decoded_vme_word (decode_mesytec_vme_word w))
      [0x40010c07; 0x10100868; 0x1000036e; 0x103002aa;
       0xc18d01bd; 0x00000000; 0x04800057; 0x20000000]
  = [(0x40010c07, module_header 0x01 0x3 7);
     (0x10100868, data_word 16 0x0);
     (0x1000036e, data_word 0 0x0);
     (0x103002aa, data_word 48 0x0);
     (0xc18d01bd, end_of_event 26018237);
     (0x00000000, fill_word);
     (0x04800057, extended_ts 0x0057);
     (0x20000000, no_descriptor)].
Proof. reflexivity. Qed.

(** ** The flags of a data word

    [mdpp_flags] is taken with the mask 0x0FC00000, whose lowest bit is bit
    22, but divided by 0x0040000, the weight of bit 18: the quotient has up
    to ten bits and is stored in an eight-bit member. *)

Example divisors_and_masks :
  lowest_bit 0x00FF0000 = 0x10000          (* module_id *)
  /\ lowest_bit 0x0000FC00 = 0x400         (* module_setting *)
  /\ lowest_bit 0x003F0000 = 0x0010000     (* channel_address *)
  /\ lowest_bit 0x0FC00000 = 0x0400000     (* mdpp_flags: divisor 0x0040000 *)
  /\ 0x0040000 = 2 ^ 18 /\ 0x0400000 = 2 ^ 22.
Proof. repeat split. Qed.

(** What the code stores for a data word. *)
Lemma mdpp_flags_stored (w : Z) :
  is_u32 w ->
  selected_kind (decode_mesytec_vme_word w) = DataWord ->
  mdpp_flags (decode_mesytec_vme_word w)
  = Z.shiftr (Z.land w 0x0FC00000) 18 mod 2 ^ 8.
Proof.
  intros _. by_flag_pattern w; intros Hk; try discriminate.
  cbv [mdpp_flags to_unsigned].
  rewrite Z.shiftr_div_pow2 by lia. reflexivity.
Qed.

(** C2: at the data word 0x14000000 the masked bits shifted right by 18
    are 256, and the record holds 0 in [mdpp_flags]. *)
Theorem mdpp_flags_truncated :
  is_u32 0x14000000
  /\ selected_kind (decode_mesytec_vme_word 0x14000000) = DataWord
  /\ Z.shiftr (Z.land 0x14000000 0x0FC00000) 18 = 256
  /\ mdpp_flags (decode_mesytec_vme_word 0x14000000) = 0
  /\ mdpp_flags (decode_mesytec_vme_word 0x14000000)
     <> Z.shiftr (Z.land 0x14000000 0x0FC00000) 18.
Proof.
  split; [unfold is_u32; lia|]. repeat split. discriminate.
Qed.

(** C3: at the data word 0x11000000 the record holds 64 in [mdpp_flags],
    which does not fit in six bits, while [channel_address] does. *)
Theorem mdpp_flags_exceeds_six_bits :
  is_u32 0x11000000
  /\ selected_kind (decode_mesytec_vme_word 0x11000000) = DataWord
  /\ channel_address (decode_mesytec_vme_word 0x11000000) < 64
  /\ mdpp_flags (decode_mesytec_vme_word 0x11000000) = 64
  /\ ~ mdpp_flags (decode_mesytec_vme_word 0x11000000) < 64.
Proof.
  split; [unfold is_u32; lia|]. repeat split. discriminate.
Qed.

(** * Word values, bit fields and ranges *)

Lemma land_field (w s n : Z) :
  0 <= s -> 0 <= n ->
  Z.land w (Z.shiftl (Z.ones n) s) = (w / 2 ^ s) mod 2 ^ n * 2 ^ s.
Proof.
  intros Hs Hn.
  rewrite <- Z.shiftl_mul_pow2, <- Z.land_ones, <- Z.shiftr_div_pow2 by lia.
  rewrite Z.shiftl_land.
  apply Z.bits_inj'. intros i Hi. rewrite !Z.land_spec.
  destruct (Z.lt_ge_cases i s) as [Hlt|Hge].
  - rewrite (Z.shiftl_spec_low (Z.ones n)) by lia.
    now rewrite !andb_false_r.
  - f_equal. rewrite Z.shiftl_spec, Z.shiftr_spec by lia. f_equal. lia.
Qed.

Lemma land_bits (w mask s n p m : Z) :
  0 <= s -> 0 <= n -> mask = Z.shiftl (Z.ones n) s -> p = 2 ^ s -> m = 2 ^ n ->
  Z.land w mask = (w / p) mod m * p.
Proof. intros Hs Hn -> -> ->. now apply land_field. Qed.


(** Rewrites every masked word of the goal and of the hypotheses into
    quotients and remainders by powers of two. *)
Ltac masks_to_fields :=
  repeat match goal with
  | H : context [Z.land ?w ?mask] |- _ => revert H
  end;
  rewrite
    ?(fun w => land_bits w 0xC0000000 30 2 0x40000000 4),
    ?(fun w => land_bits w 0xF0000000 28 4 0x10000000 16),
    ?(fun w => land_bits w 0xFF800000 23 9 0x00800000 512),
    ?(fun w => land_bits w 0x000003FF 0 10 1 1024),
    ?(fun w => land_bits w 0x00FF0000 16 8 0x10000 256),
    ?(fun w => land_bits w 0x0000FC00 10 6 0x400 64),
    ?(fun w => land_bits w 0x003F0000 16 6 0x10000 64),
    ?(fun w => land_bits w 0x0FC00000 22 6 0x400000 64),
    ?(fun w => land_bits w 0x0000FFFF 0 16 1 65536),
    ?(fun w => land_bits w 0x3FFFFFFF 0 30 1 1073741824)
    by (reflexivity || lia);
  intros.

Ltac eval_powers :=
  repeat match goal with
  | |- context [2 ^ ?k] =>
      let v := eval cbv in (2 ^ k) in change (2 ^ k) with v in *
  | H : context [2 ^ ?k] |- _ =>
      let v := eval cbv in (2 ^ k) in change (2 ^ k) with v in *
  end.

Ltac fields_arith :=
  cbv [is_u32 to_unsigned] in *; eval_powers;
  Z.div_mod_to_equations; lia.

(** Decides the comparisons of the goal, keeping the consistent branch. *)
Ltac decide_ranges :=
  repeat match goal with
  | |- context [?a =? ?b] =>
      destruct (Z.eqb_spec a b); try (exfalso; fields_arith)
  | |- context [?a <=? ?b] =>
      destruct (Z.leb_spec a b); try (exfalso; fields_arith)
  | |- context [?a <? ?b] =>
      destruct (Z.ltb_spec a b); try (exfalso; fields_arith)
  end.

Lemma pattern_ranges (w : Z) :
  is_u32 w ->
  Spec.is_header w = (0x40000000 <=? w) && (w <? 0x80000000)
  /\ Spec.is_data w =
       ((0x10000000 <=? w) && (w <? 0x20000000))
       || ((0x04000000 <=? w) && (w <? 0x04800000))
  /\ Spec.is_ext_ts w = (0x04800000 <=? w) && (w <? 0x05000000)
  /\ Spec.is_eoe w = (0xC0000000 <=? w).
Proof.
  intros Hw.
  unfold Spec.is_header, Spec.is_data, Spec.is_ext_ts, Spec.is_eoe.
  masks_to_fields.
  repeat split;
    repeat match goal with
    | |- context [?a =? ?b] => destruct (Z.eqb_spec a b)
    | |- context [?a <=? ?b] => destruct (Z.leb_spec a b)
    | |- context [?a <? ?b] => destruct (Z.ltb_spec a b)
    end; try reflexivity; exfalso; fields_arith.
Qed.

(** X1: the kind selected for a 32-bit word is decided by the range the
    word lies in: 0 is the fill word, [0x04000000, 0x04800000) and
    [0x10000000, 0x20000000) are data words, [0x04800000, 0x05000000) are
    extended timestamps, [0x40000000, 0x80000000) are module headers,
    0xC0000000 and above are ends of event, everything else is
    unrecognized. *)
Theorem kind_by_range (w : Z) :
  is_u32 w ->
  selected_kind (decode_mesytec_vme_word w) = kind_of_range w.
Proof.
  intros Hw. rewrite selected_kind_closed_form. unfold Spec.first_match.
  destruct (pattern_ranges w Hw) as (-> & -> & -> & ->).
  unfold Spec.is_fill, kind_of_range.
  decide_ranges; reflexivity.
Qed.

Lemma flag_equations (w : Z) :
  (true = Spec.is_header w -> Z.land w 0xC0000000 = 0x40000000)
  /\ (true = Spec.is_ext_ts w -> Z.land w 0xFF800000 = 0x04800000)
  /\ (true = Spec.is_eoe w -> Z.land w 0xC0000000 = 0xC0000000)
  /\ (true = Spec.is_fill w -> w = 0).
Proof.
  unfold Spec.is_header, Spec.is_ext_ts, Spec.is_eoe, Spec.is_fill.
  repeat split; intros H; symmetry in H; now apply Z.eqb_eq in H.
Qed.

(** X2: how the decoded members sit in the word.  A header word is
    0x40000000 plus six undecoded bits (24 to 29) plus the three members at
    bits 16, 10 and 0; an extended timestamp is 0x04800000 plus seven
    undecoded bits plus [high_stamp]; an end of event is 0xC0000000 plus
    [low_stamp]; a fill word is 0.  In a data word [channel_address] is bits
    16 to 21 and [mdpp_flags] is sixteen times bits 22 to 25. *)
Theorem word_layout (w : Z) :
  is_u32 w ->
  let dw := decode_mesytec_vme_word w in
  match selected_kind dw with
  | ModuleHeader =>
      w = 0x40000000 + (w / 2 ^ 24) mod 64 * 2 ^ 24
          + module_id dw * 2 ^ 16 + module_setting dw * 2 ^ 10
          + data_length dw
  | DataWord =>
      channel_address dw = (w / 2 ^ 16) mod 64
      /\ mdpp_flags dw = 16 * ((w / 2 ^ 22) mod 16)
  | ExtendedTimestamp =>
      w = 0x04800000 + (w / 2 ^ 16) mod 128 * 2 ^ 16 + high_stamp dw
  | EndOfEvent => w = 0xC0000000 + low_stamp dw
  | FillWord => w = 0
  | Unrecognized => w <> 0
  end.
Proof.
  intros Hw. cbv zeta.
  destruct (flag_equations w) as (Eh & Ex & Ee & Ef).
  by_flag_pattern w;
    cbv [data_length module_setting module_id channel_address mdpp_flags
         high_stamp low_stamp].
  - specialize (Eh eq_refl). masks_to_fields. fields_arith.
  - masks_to_fields. split; fields_arith.
  - specialize (Ex eq_refl). masks_to_fields. fields_arith.
  - specialize (Ee eq_refl). masks_to_fields. fields_arith.
  - now apply Ef.
  - intros ->. discriminate.
Qed.

(** Evaluates the decoder and the renderer's choice on a word given as a sum
    of bit fields. *)
Ltac decode_assembled w Hw :=
  destruct (pattern_ranges w Hw) as (Hh & Hd & Hx & He);
  rewrite decode_closed_form; unfold print_decoded_vme_word;
  cbn [word header_found data_found extended_ts_found eoe_found
       fill_word_found data_length module_setting module_id channel_address
       mdpp_flags high_stamp low_stamp];
  rewrite ?Hh, ?Hd, ?Hx, ?He; unfold Spec.is_fill;
  clear Hh Hd Hx He; subst w;
  decide_ranges; cbn [andb orb];
  repeat match goal with
  | |- (_, _) = (_, _) => f_equal
  | |- module_header _ _ _ = _ => f_equal
  | |- data_word _ _ = _ => f_equal
  | |- extended_ts _ = _ => f_equal
  | |- end_of_event _ = _ => f_equal
  end;
  masks_to_fields; fields_arith.

(** X3: a word assembled from a module id, a module setting and a data
    length (and any six bits at 24 to 29) decodes to a module header with
    exactly these three values. *)
Theorem header_assembled (filler id setting len : Z) :
  0 <= filler < 64 -> 0 <= id < 256 -> 0 <= setting < 64 ->
  0 <= len < 1024 ->
  let w := 0x40000000 + filler * 2 ^ 24 + id * 2 ^ 16 + setting * 2 ^ 10
           + len in
  print_decoded_vme_word (decode_mesytec_vme_word w)
  = (w, module_header id setting len).
Proof.
  intros Hf Hi Hs Hl w.
  assert (Hw : is_u32 w) by (subst w; fields_arith).
  decode_assembled w Hw.
Qed.

(** X4: every 30-bit stamp placed under the two top bits 11 decodes to an
    end of event carrying that stamp. *)
Theorem end_of_event_assembled (stamp : Z) :
  0 <= stamp < 2 ^ 30 ->
  let w := 0xC0000000 + stamp in
  print_decoded_vme_word (decode_mesytec_vme_word w)
  = (w, end_of_event stamp).
Proof.
  intros Hs w.
  assert (Hw : is_u32 w) by (subst w; fields_arith).
  decode_assembled w Hw.
Qed.

(** X5: every 16-bit stamp placed under the pattern 0x04800000 (with any
    seven bits at 16 to 22) decodes to an extended timestamp carrying that
    stamp. *)
Theorem extended_ts_assembled (filler stamp : Z) :
  0 <= filler < 128 -> 0 <= stamp < 2 ^ 16 ->
  let w := 0x04800000 + filler * 2 ^ 16 + stamp in
  print_decoded_vme_word (decode_mesytec_vme_word w)
  = (w, extended_ts stamp).
Proof.
  intros Hf Hs w.
  assert (Hw : is_u32 w) by (subst w; fields_arith).
  decode_assembled w Hw.
Qed.

(** X6: an MDPP data word assembled from six flag bits at 22 to 27, a
    channel and a 16-bit payload decodes to a data word with that channel;
    of the flags the record keeps the low four bits, multiplied by 16, and
    loses the two high ones. *)
Theorem mdpp_data_assembled (flags channel payload : Z) :
  0 <= flags < 64 -> 0 <= channel < 64 -> 0 <= payload < 2 ^ 16 ->
  let w := 0x10000000 + flags * 2 ^ 22 + channel * 2 ^ 16 + payload in
  print_decoded_vme_word (decode_mesytec_vme_word w)
  = (w, data_word channel (16 * (flags mod 16))).
Proof.
  intros Hf Hc Hp w.
  assert (Hw : is_u32 w) by (subst w; fields_arith).
  decode_assembled w Hw.
Qed.

(** X7: an MxDC data word (pattern 0x04000000) with bit 22, a channel and
    a 16-bit payload decodes to a data word with that channel and with
    [mdpp_flags] 0 or 16 according to bit 22. *)
Theorem mxdc_data_assembled (bit22 channel payload : Z) :
  0 <= bit22 < 2 -> 0 <= channel < 64 -> 0 <= payload < 2 ^ 16 ->
  let w := 0x04000000 + bit22 * 2 ^ 22 + channel * 2 ^ 16 + payload in
  print_decoded_vme_word (decode_mesytec_vme_word w)
  = (w, data_word channel (16 * bit22)).
Proof.
  intros Hf Hc Hp w.
  assert (Hw : is_u32 w) by (subst w; fields_arith).
  decode_assembled w Hw.
Qed.

(** X8: one call assigns no member twice, always assigns [word] and the
    five flags, and leaves every member it does not assign at the value of
    the zero initialization. *)
Theorem writes_frame (w : Z) :
  is_u32 w ->
  let dw := decode_mesytec_vme_word w in
  NoDup (decode_writes w)
  /\ (forall m, owner m = None -> In m (decode_writes w))
  /\ (forall m, ~ In m (decode_writes w) ->
        member_value m dw = member_value m zero_initialized).
Proof.
  intros _. cbv zeta.
  by_flag_pattern w; cbv [app]; (split; [|split]).
  all: try (repeat constructor; cbv [In]; intuition discriminate).
  all: try (intros m Hm; destruct m; try discriminate Hm; cbv [In]; tauto).
  all: intros m Hm; destruct m;
    cbv [member_value zero_initialized data_length module_setting module_id
         channel_address mdpp_flags high_stamp low_stamp];
    try reflexivity; exfalso; apply Hm; cbv [In]; tauto.
Qed.

(** * The printed text *)

Lemma digit_value_char (d : Z) :
  0 <= d < 16 -> digit_value (digit_char d) = d.
Proof.
  intros H.
  assert (E : d = 0 \/ d = 1 \/ d = 2 \/ d = 3 \/ d = 4 \/ d = 5 \/ d = 6
              \/ d = 7 \/ d = 8 \/ d = 9 \/ d = 10 \/ d = 11 \/ d = 12
              \/ d = 13 \/ d = 14 \/ d = 15) by lia.
  repeat (destruct E as [-> | E]; [reflexivity|]). now subst.
Qed.

Lemma digit_char_plain (d : Z) : plain (digit_char d) = true.
Proof.
  unfold digit_char. generalize (Z.to_nat d) as n. intros n.
  do 16 (destruct n as [|n]; [reflexivity|]).
  destruct n; reflexivity.
Qed.

Lemma digits_rev_value (base : Z) (fuel : nat) :
  2 <= base <= 16 ->
  forall v, 0 <= v < 2 ^ Z.of_nat fuel ->
  value_rev base (digits_rev base fuel v) = v.
Proof.
  intros Hb. induction fuel as [|fuel IH]; intros v Hv.
  - cbn in Hv. cbn. lia.
  - cbn [digits_rev]. destruct (Z.ltb_spec v base) as [Hlt|Hge].
    + cbn [value_rev]. rewrite digit_value_char by lia. lia.
    + cbn [value_rev].
      rewrite digit_value_char by (pose proof (Z.mod_pos_bound v base); lia).
      rewrite IH.
      * pose proof (Z.div_mod v base). lia.
      * rewrite Nat2Z.inj_succ, Z.pow_succ_r in Hv by lia.
        split; [apply Z.div_pos; lia|].
        apply Z.div_lt_upper_bound; [lia|].
        assert (0 < 2 ^ Z.of_nat fuel) by (apply Z.pow_pos_nonneg; lia).
        nia.
Qed.

Lemma digits_rev_length (base : Z) (fuel : nat) :
  2 <= base ->
  forall (n : nat) v, (1 <= n)%nat -> 0 <= v < base ^ Z.of_nat n ->
  (List.length (digits_rev base fuel v) <= n)%nat.
Proof.
  intros Hb. induction fuel as [|fuel IH]; intros n v Hn Hv.
  - cbn. lia.
  - cbn [digits_rev]. destruct (Z.ltb_spec v base) as [Hlt|Hge].
    + cbn [List.length]. lia.
    + destruct n as [|n]; [lia|].
      rewrite Nat2Z.inj_succ, Z.pow_succ_r in Hv by lia.
      cbn [List.length]. apply le_n_S. apply IH.
      * destruct n as [|n]; [cbn in Hv; lia | lia].
      * split; [apply Z.div_pos; lia|].
        apply Z.div_lt_upper_bound; [lia | apply Hv].
Qed.

Lemma digits_rev_plain (base : Z) (fuel : nat) (v : Z) :
  forallb plain (digits_rev base fuel v) = true.
Proof.
  revert v. induction fuel as [|fuel IH]; intros v; [reflexivity|].
  cbn [digits_rev]. destruct (v <? base); cbn [forallb].
  - now rewrite digit_char_plain.
  - now rewrite digit_char_plain, IH.
Qed.

Lemma fuel_enough (v : Z) :
  0 <= v -> v < 2 ^ Z.of_nat (S (Z.to_nat (Z.log2 v))).
Proof.
  intros Hv. rewrite Nat2Z.inj_succ, Z2Nat.id by apply Z.log2_nonneg.
  destruct (Z.eq_dec v 0) as [->|Hn]; [cbn; lia|].
  apply Z.log2_spec. lia.
Qed.

Lemma digits_value (base v : Z) :
  2 <= base <= 16 -> 0 <= v -> number_value base (digits base v) = v.
Proof.
  intros Hb Hv. unfold number_value, digits. rewrite rev_involutive.
  apply digits_rev_value; [exact Hb|]. split; [exact Hv|].
  now apply fuel_enough.
Qed.

Lemma digits_length (base v : Z) (n : nat) :
  2 <= base -> (1 <= n)%nat -> 0 <= v < base ^ Z.of_nat n ->
  (List.length (digits base v) <= n)%nat.
Proof.
  intros Hb Hn Hv. unfold digits. rewrite length_rev.
  now apply digits_rev_length.
Qed.

Lemma digits_plain (base v : Z) : forallb plain (digits base v) = true.
Proof.
  unfold digits. apply forallb_forall. intros c Hc%in_rev.
  revert c Hc. apply forallb_forall. apply digits_rev_plain.
Qed.

Lemma pad_length (c : ascii) (width : nat) (s : list ascii) :
  (List.length s <= width)%nat -> List.length (pad c width s) = width.
Proof.
  intros H. unfold pad. rewrite length_app, repeat_length. lia.
Qed.

Lemma value_rev_zeros (base : Z) (ds : list ascii) (k : nat) :
  value_rev base (ds ++ repeat "0"%char k) = value_rev base ds.
Proof.
  induction ds as [|c ds IH]; cbn [app value_rev].
  - induction k as [|k IHk]; [reflexivity|].
    cbn [repeat value_rev]. rewrite IHk.
    change (digit_value "0") with 0. lia.
  - now rewrite IH.
Qed.

Lemma rev_repeat_same (c : ascii) (k : nat) : rev (repeat c k) = repeat c k.
Proof.
  induction k as [|k IH]; [reflexivity|].
  cbn [repeat rev]. rewrite IH. clear IH.
  induction k as [|k IH]; [reflexivity|]. cbn [repeat app]. now rewrite IH.
Qed.

Lemma fmt_0x_value (width : nat) (v : Z) :
  0 <= v -> number_value 16 (fmt_0x width v) = v.
Proof.
  intros Hv. unfold fmt_0x, pad, number_value.
  rewrite rev_app_distr, rev_repeat_same, value_rev_zeros.
  apply (digits_value 16 v); lia.
Qed.

Lemma fmt_0x_length (width : nat) (v : Z) :
  (1 <= width)%nat -> 0 <= v < 16 ^ Z.of_nat width ->
  List.length (fmt_0x width v) = width.
Proof.
  intros Hw Hv. apply pad_length. apply digits_length; [lia | exact Hw | exact Hv].
Qed.

Lemma firstn_exact {A : Type} (l r : list A) :
  firstn (List.length l) (l ++ r) = l.
Proof. induction l as [|x l IH]; [destruct r; reflexivity|]. cbn. now rewrite IH. Qed.

Lemma forallb_plain_app (l r : list ascii) :
  forallb plain l = true -> forallb plain r = true ->
  forallb plain (l ++ r) = true.
Proof. intros Hl Hr. now rewrite forallb_app, Hl, Hr. Qed.

Lemma pad_plain (c : ascii) (width : nat) (s : list ascii) :
  plain c = true -> forallb plain s = true ->
  forallb plain (pad c width s) = true.
Proof.
  intros Hc Hs. unfold pad. apply forallb_plain_app; [|exact Hs].
  induction (width - List.length s)%nat as [|k IH]; [reflexivity|].
  cbn [repeat forallb]. now rewrite Hc, IH.
Qed.

Lemma fmt_d_plain (v : Z) : 0 <= v -> forallb plain (fmt_d v) = true.
Proof.
  intros Hv. unfold fmt_d. destruct (Z.ltb_spec v 0); [lia|].
  apply digits_plain.
Qed.

Lemma count_plain (l : list ascii) :
  forallb plain l = true -> count_occ ascii_dec l newline = 0%nat.
Proof.
  induction l as [|c l IH]; [reflexivity|].
  cbn [forallb]. intros [Hc Hl]%andb_prop.
  cbn [count_occ]. destruct (ascii_dec c newline) as [->|_].
  - discriminate Hc.
  - now apply IH.
Qed.

Lemma member_bounds (w : Z) (m : Member) :
  0 <= member_value m (decode_mesytec_vme_word w) < 2 ^ width m.
Proof.
  pose proof (in_range_decode w m) as H. unfold in_range in H.
  apply andb_prop in H as [Hlo Hhi].
  split; [now apply Z.leb_le | now apply Z.ltb_lt].
Qed.

Lemma low_stamp_bound (w : Z) :
  is_u32 w -> 0 <= low_stamp (decode_mesytec_vme_word w) < 2 ^ 30.
Proof.
  intros Hw. rewrite decode_closed_form. cbn [low_stamp].
  destruct (Spec.is_eoe w); [|lia].
  apply (stored_mask 32 w 0x3FFFFFFF 30 Hw); lia.
Qed.

Lemma channel_address_bound (w : Z) :
  is_u32 w -> 0 <= channel_address (decode_mesytec_vme_word w) < 2 ^ 6.
Proof.
  intros Hw. rewrite decode_closed_form. cbn [channel_address].
  destruct (Spec.is_data w); [|lia].
  apply (stored_quotient 8 w 0x003F0000 16 6 Hw); lia.
Qed.

Lemma format_descriptor_plain (d : Descriptor) :
  match d with
  | module_header mi ms dl => 0 <= mi /\ 0 <= ms /\ 0 <= dl
  | data_word ca fl => 0 <= ca /\ 0 <= fl
  | extended_ts hs => 0 <= hs
  | end_of_event ls => 0 <= ls < 2 ^ 31
  | fill_word | no_descriptor => True
  end ->
  forallb plain (format_descriptor d) = true.
Proof.
  destruct d as [mi ms dl | ca fl | hs | ls | |]; cbn [format_descriptor];
    intros H;
    repeat first
      [ reflexivity
      | apply digits_plain
      | apply fmt_d_plain; lia
      | apply pad_plain; [reflexivity|]
      | apply forallb_plain_app ].
  apply fmt_d_plain. unfold as_int. destruct (Z.ltb_spec ls (2 ^ 31)); lia.
Qed.

Lemma firstn_length_app {A : Type} (n : nat) (l r : list A) :
  List.length l = n -> firstn n (l ++ r) = l.
Proof. intros <-. apply firstn_exact. Qed.

Lemma print_line_shape (w : Z) :
  is_u32 w ->
  print_line (decode_mesytec_vme_word w)
  = text "0x" ++ fmt_0x 8 w ++ text " "
    ++ format_descriptor (snd (print_decoded_vme_word
                                 (decode_mesytec_vme_word w)))
    ++ [newline].
Proof.
  intros Hw. unfold print_line.
  destruct (print_decoded_vme_word (decode_mesytec_vme_word w)) as [w' d] eqn:E.
  cbn [snd]. replace w' with w; [reflexivity|].
  apply (f_equal fst) in E. cbn [fst] in E. rewrite <- E.
  unfold print_decoded_vme_word. cbn [fst].
  rewrite decode_closed_form. cbn [word].
  symmetry. apply to_unsigned_small. exact Hw.
Qed.

Lemma hex_word_length (w : Z) :
  is_u32 w -> List.length (fmt_0x 8 w) = 8%nat.
Proof.
  intros Hw. apply fmt_0x_length; [lia|].
  unfold is_u32 in Hw. change (16 ^ Z.of_nat 8) with (2 ^ 32). exact Hw.
Qed.

Lemma descriptor_plain (w : Z) :
  is_u32 w ->
  forallb plain
    (format_descriptor (snd (print_decoded_vme_word
                               (decode_mesytec_vme_word w)))) = true.
Proof.
  intros Hw. apply format_descriptor_plain.
  pose proof (member_bounds w M_module_id) as Hmi.
  pose proof (member_bounds w M_module_setting) as Hms.
  pose proof (member_bounds w M_data_length) as Hdl.
  pose proof (member_bounds w M_channel_address) as Hca.
  pose proof (member_bounds w M_mdpp_flags) as Hfl.
  pose proof (member_bounds w M_high_stamp) as Hhs.
  pose proof (low_stamp_bound w Hw) as Hls.
  cbn [member_value] in *.
  unfold print_decoded_vme_word. cbn [snd].
  destruct (header_found _); [lia|].
  destruct (data_found _); [lia|].
  destruct (extended_ts_found _); [lia|].
  destruct (eoe_found _); [lia|].
  destruct (fill_word_found _); exact I.
Qed.

(** X9: the line printed for a 32-bit word starts with [0x], then exactly
    eight hexadecimal digits whose value is the word, then a space. *)
Theorem printed_word_reads_back (w : Z) :
  is_u32 w ->
  let line := print_line (decode_mesytec_vme_word w) in
  firstn 2 line = text "0x"
  /\ number_value 16 (firstn 8 (skipn 2 line)) = w
  /\ nth_error line 10 = Some " "%char.
Proof.
  intros Hw line. subst line. rewrite (print_line_shape w Hw).
  pose proof (hex_word_length w Hw) as Hlen.
  set (tail := text " " ++ _).
  set (hex := fmt_0x 8 w) in *.
  change (text "0x" ++ hex ++ tail)
    with ("0"%char :: "x"%char :: (hex ++ tail)).
  change (firstn 2 ("0"%char :: "x"%char :: (hex ++ tail)))
    with ["0"%char; "x"%char].
  change (skipn 2 ("0"%char :: "x"%char :: (hex ++ tail)))
    with (hex ++ tail).
  change (nth_error ("0"%char :: "x"%char :: (hex ++ tail)) 10)
    with (nth_error (hex ++ tail) 8).
  split; [reflexivity|]. split.
  - rewrite firstn_length_app by exact Hlen.
    apply fmt_0x_value. apply Hw.
  - rewrite nth_error_app2 by lia. rewrite Hlen. reflexivity.
Qed.

(** X10: the padded conversions never overflow their minimum width on a
    decoded record: the word takes exactly eight characters, [module_id]
    exactly two and [channel_address] exactly two. *)
Theorem fixed_width_columns (w : Z) :
  is_u32 w ->
  let dw := decode_mesytec_vme_word w in
  List.length (fmt_0x 8 (word dw)) = 8%nat
  /\ List.length (fmt_0x 2 (module_id dw)) = 2%nat
  /\ List.length (fmt_wd 2 (channel_address dw)) = 2%nat.
Proof.
  intros Hw dw. subst dw.
  pose proof (member_bounds w M_word) as Hwd.
  pose proof (member_bounds w M_module_id) as Hmi.
  pose proof (channel_address_bound w Hw) as Hca.
  cbn [member_value width] in *.
  split; [|split].
  - apply fmt_0x_length; [lia|]. change (16 ^ Z.of_nat 8) with (2 ^ 32).
    exact Hwd.
  - apply fmt_0x_length; [lia|]. change (16 ^ Z.of_nat 2) with (2 ^ 8).
    exact Hmi.
  - unfold fmt_wd. apply pad_length. unfold fmt_d.
    destruct (Z.ltb_spec (channel_address (decode_mesytec_vme_word w)) 0);
      [lia|].
    apply digits_length; [lia | lia |].
    change (10 ^ Z.of_nat 2) with 100. change (2 ^ 6) with 64 in Hca. lia.
Qed.

Lemma line_body_plain (w : Z) :
  is_u32 w ->
  exists body,
    print_line (decode_mesytec_vme_word w) = body ++ [newline]
    /\ forallb plain body = true.
Proof.
  intros Hw. rewrite (print_line_shape w Hw).
  exists (text "0x" ++ fmt_0x 8 w ++ text " "
          ++ format_descriptor (snd (print_decoded_vme_word
                                       (decode_mesytec_vme_word w)))).
  split; [now rewrite <- !app_assoc|].
  apply forallb_plain_app; [reflexivity|].
  apply forallb_plain_app;
    [apply pad_plain; [reflexivity | apply digits_plain]|].
  apply forallb_plain_app; [reflexivity|].
  now apply descriptor_plain.
Qed.

(** X11: the text printed for a 32-bit word is one line: it ends with the
    newline character, contains no other newline, and no minus sign (so
    [low_stamp], although unsigned and printed with [%d], is never shown as
    negative). *)
Theorem one_line_per_record (w : Z) :
  is_u32 w ->
  let line := print_line (decode_mesytec_vme_word w) in
  last line "0"%char = newline
  /\ forallb plain (removelast line) = true
  /\ count_occ ascii_dec line newline = 1%nat.
Proof.
  intros Hw line. subst line.
  destruct (line_body_plain w Hw) as (body & -> & Hbody).
  rewrite last_last, removelast_last, count_occ_app, (count_plain body Hbody).
  repeat split; [exact Hbody].
Qed.

Lemma line_prefix (w : Z) (rest : list ascii) :
  is_u32 w ->
  firstn 10 (print_line (decode_mesytec_vme_word w) ++ rest)
  = text "0x" ++ fmt_0x 8 w.
Proof.
  intros Hw. rewrite (print_line_shape w Hw).
  rewrite <- !app_assoc.
  rewrite (app_assoc (text "0x") (fmt_0x 8 w)).
  apply firstn_length_app.
  rewrite length_app, (hex_word_length w Hw). reflexivity.
Qed.

Lemma line_determines_word (w1 w2 : Z) (rest1 rest2 : list ascii) :
  is_u32 w1 -> is_u32 w2 ->
  print_line (decode_mesytec_vme_word w1) ++ rest1
  = print_line (decode_mesytec_vme_word w2) ++ rest2 ->
  w1 = w2.
Proof.
  intros H1 H2 E. apply (f_equal (firstn 10)) in E.
  rewrite (line_prefix w1 rest1 H1), (line_prefix w2 rest2 H2) in E.
  apply app_inv_head in E. apply (f_equal (number_value 16)) in E.
  rewrite !fmt_0x_value in E by apply H1 || apply H2. exact E.
Qed.

Lemma print_line_not_empty (dw : DecodedVMEDataWord) (rest : list ascii) :
  print_line dw ++ rest <> [].
Proof.
  unfold print_line. destruct (print_decoded_vme_word dw) as [w d].
  discriminate.
Qed.

(** X12: the loop stops at the first failed extraction: what follows it in
    the input has no effect on the output, and the output has exactly one
    line per word read before it. *)
Theorem main_reads_until_failure (ws : list Z) (rest : list (option Z)) :
  Forall is_u32 ws ->
  main (map Some ws ++ None :: rest) = main (map Some ws)
  /\ count_occ ascii_dec (main (map Some ws ++ None :: rest)) newline
     = List.length ws.
Proof.
  intros Hws. induction Hws as [|w ws Hw Hws [IHm IHc]].
  - split; reflexivity.
  - cbn [map app main]. split; [now rewrite IHm|].
    rewrite count_occ_app, IHc.
    destruct (line_body_plain w Hw) as (body & -> & Hbody).
    rewrite count_occ_app, (count_plain body Hbody).
    reflexivity.
Qed.

(** X13: the output is a faithful record of the input: two sequences of
    32-bit words that produce the same text are the same sequence. *)
Theorem main_output_determines_input (ws1 ws2 : list Z) :
  Forall is_u32 ws1 -> Forall is_u32 ws2 ->
  main (map Some ws1) = main (map Some ws2) -> ws1 = ws2.
Proof.
  intros H1. revert ws2.
  induction H1 as [|w1 ws1 Hw1 H1 IH]; intros ws2 H2 E.
  - destruct ws2 as [|w2 ws2]; [reflexivity|].
    cbn [map main] in E. symmetry in E.
    now apply print_line_not_empty in E.
  - destruct H2 as [|w2 ws2 Hw2 H2].
    + cbn [map main] in E. now apply print_line_not_empty in E.
    + cbn [map main] in E.
      pose proof (line_determines_word w1 w2 _ _ Hw1 Hw2 E) as ->.
      apply app_inv_head in E. f_equal. now apply IH.
Qed.

(** * Instances

    Each statement above with a precondition, applied to a concrete word. *)

Lemma kind_by_range_witness :
  is_u32 0x04800057
  /\ selected_kind (decode_mesytec_vme_word 0x04800057)
     = kind_of_range 0x04800057.
Proof.
  assert (H : is_u32 0x04800057) by (unfold is_u32; lia).
  split; [exact H | exact (kind_by_range 0x04800057 H)].
Defined.

Lemma word_layout_witness :
  is_u32 0x40010c07
  /\ let dw := decode_mesytec_vme_word 0x40010c07 in
     match selected_kind dw with
     | ModuleHeader =>
         0x40010c07 = 0x40000000 + (0x40010c07 / 2 ^ 24) mod 64 * 2 ^ 24
                      + module_id dw * 2 ^ 16 + module_setting dw * 2 ^ 10
                      + data_length dw
     | DataWord =>
         channel_address dw = (0x40010c07 / 2 ^ 16) mod 64
         /\ mdpp_flags dw = 16 * ((0x40010c07 / 2 ^ 22) mod 16)
     | ExtendedTimestamp =>
         0x40010c07 = 0x04800000 + (0x40010c07 / 2 ^ 16) mod 128 * 2 ^ 16
                      + high_stamp dw
     | EndOfEvent => 0x40010c07 = 0xC0000000 + low_stamp dw
     | FillWord => 0x40010c07 = 0
     | Unrecognized => 0x40010c07 <> 0
     end.
Proof.
  assert (H : is_u32 0x40010c07) by (unfold is_u32; lia).
  split; [exact H | exact (word_layout 0x40010c07 H)].
Defined.

Lemma header_assembled_witness :
  0 <= 0 < 64 /\ 0 <= 1 < 256 /\ 0 <= 3 < 64 /\ 0 <= 7 < 1024
  /\ let w := 0x40000000 + 0 * 2 ^ 24 + 1 * 2 ^ 16 + 3 * 2 ^ 10 + 7 in
     print_decoded_vme_word (decode_mesytec_vme_word w)
     = (w, module_header 1 3 7).
Proof.
  assert (Hf : 0 <= 0 < 64) by lia. assert (Hi : 0 <= 1 < 256) by lia.
  assert (Hs : 0 <= 3 < 64) by lia. assert (Hl : 0 <= 7 < 1024) by lia.
  repeat (split; [assumption|]).
  exact (header_assembled 0 1 3 7 Hf Hi Hs Hl).
Defined.

Lemma end_of_event_assembled_witness :
  0 <= 26018237 < 2 ^ 30
  /\ let w := 0xC0000000 + 26018237 in
     print_decoded_vme_word (decode_mesytec_vme_word w)
     = (w, end_of_event 26018237).
Proof.
  assert (H : 0 <= 26018237 < 2 ^ 30) by lia.
  split; [exact H | exact (end_of_event_assembled 26018237 H)].
Defined.

Lemma extended_ts_assembled_witness :
  0 <= 0 < 128 /\ 0 <= 0x57 < 2 ^ 16
  /\ let w := 0x04800000 + 0 * 2 ^ 16 + 0x57 in
     print_decoded_vme_word (decode_mesytec_vme_word w)
     = (w, extended_ts 0x57).
Proof.
  assert (Hf : 0 <= 0 < 128) by lia.
  assert (Hs : 0 <= 0x57 < 2 ^ 16) by lia.
  repeat (split; [assumption|]).
  exact (extended_ts_assembled 0 0x57 Hf Hs).
Defined.

Lemma mdpp_data_assembled_witness :
  0 <= 63 < 64 /\ 0 <= 16 < 64 /\ 0 <= 0x0868 < 2 ^ 16
  /\ let w := 0x10000000 + 63 * 2 ^ 22 + 16 * 2 ^ 16 + 0x0868 in
     print_decoded_vme_word (decode_mesytec_vme_word w)
     = (w, data_word 16 (16 * (63 mod 16))).
Proof.
  assert (Hf : 0 <= 63 < 64) by lia. assert (Hc : 0 <= 16 < 64) by lia.
  assert (Hp : 0 <= 0x0868 < 2 ^ 16) by lia.
  repeat (split; [assumption|]).
  exact (mdpp_data_assembled 63 16 0x0868 Hf Hc Hp).
Defined.

Lemma mxdc_data_assembled_witness :
  0 <= 1 < 2 /\ 0 <= 5 < 64 /\ 0 <= 1 < 2 ^ 16
  /\ let w := 0x04000000 + 1 * 2 ^ 22 + 5 * 2 ^ 16 + 1 in
     print_decoded_vme_word (decode_mesytec_vme_word w)
     = (w, data_word 5 (16 * 1)).
Proof.
  assert (Hb : 0 <= 1 < 2) by lia. assert (Hc : 0 <= 5 < 64) by lia.
  assert (Hp : 0 <= 1 < 2 ^ 16) by lia.
  repeat (split; [assumption|]).
  exact (mxdc_data_assembled 1 5 1 Hb Hc Hp).
Defined.

Lemma writes_frame_witness :
  is_u32 0x40010c07
  /\ let dw := decode_mesytec_vme_word 0x40010c07 in
     NoDup (decode_writes 0x40010c07)
     /\ (forall m, owner m = None -> In m (decode_writes 0x40010c07))
     /\ (forall m, ~ In m (decode_writes 0x40010c07) ->
           member_value m dw = member_value m zero_initialized).
Proof.
  assert (H : is_u32 0x40010c07) by (unfold is_u32; lia).
  split; [exact H | exact (writes_frame 0x40010c07 H)].
Defined.

Lemma printed_word_reads_back_witness :
  is_u32 0xc18d01bd
  /\ let line := print_line (decode_mesytec_vme_word 0xc18d01bd) in
     firstn 2 line = text "0x"
     /\ number_value 16 (firstn 8 (skipn 2 line)) = 0xc18d01bd
     /\ nth_error line 10 = Some " "%char.
Proof.
  assert (H : is_u32 0xc18d01bd) by (unfold is_u32; lia).
  split; [exact H | exact (printed_word_reads_back 0xc18d01bd H)].
Defined.

Lemma fixed_width_columns_witness :
  is_u32 0x1000036e
  /\ let dw := decode_mesytec_vme_word 0x1000036e in
     List.length (fmt_0x 8 (word dw)) = 8%nat
     /\ List.length (fmt_0x 2 (module_id dw)) = 2%nat
     /\ List.length (fmt_wd 2 (channel_address dw)) = 2%nat.
Proof.
  assert (H : is_u32 0x1000036e) by (unfold is_u32; lia).
  split; [exact H | exact (fixed_width_columns 0x1000036e H)].
Defined.

Lemma one_line_per_record_witness :
  is_u32 0x20000000
  /\ let line := print_line (decode_mesytec_vme_word 0x20000000) in
     last line "0"%char = newline
     /\ forallb plain (removelast line) = true
     /\ count_occ ascii_dec line newline = 1%nat.
Proof.
  assert (H : is_u32 0x20000000) by (unfold is_u32; lia).
  split; [exact H | exact (one_line_per_record 0x20000000 H)].
Defined.

Lemma main_reads_until_failure_witness :
  Forall is_u32 [0x40010c07; 0xc18d01bd]
  /\ main (map Some [0x40010c07; 0xc18d01bd] ++ None :: [Some 0])
     = main (map Some [0x40010c07; 0xc18d01bd])
  /\ count_occ ascii_dec
       (main (map Some [0x40010c07; 0xc18d01bd] ++ None :: [Some 0]))
       newline
     = List.length [0x40010c07; 0xc18d01bd].
Proof.
  assert (H : Forall is_u32 [0x40010c07; 0xc18d01bd])
    by (repeat apply Forall_cons; try apply Forall_nil; unfold is_u32; lia).
  split; [exact H|].
  exact (main_reads_until_failure [0x40010c07; 0xc18d01bd] [Some 0] H).
Defined.

Lemma main_output_determines_input_witness :
  Forall is_u32 [0x40010c07] /\ Forall is_u32 [0x40010c07]
  /\ main (map Some [0x40010c07]) = main (map Some [0x40010c07])
  /\ [0x40010c07] = [0x40010c07].
Proof.
  assert (H : Forall is_u32 [0x40010c07])
    by (repeat apply Forall_cons; try apply Forall_nil; unfold is_u32; lia).
  repeat (split; [first [exact H | reflexivity]|]).
  exact (main_output_determines_input [0x40010c07] [0x40010c07] H H eq_refl).
Defined.

(** The run shown in the comment at the head of the source file (lines
    13-21): the same eight words give the same eight lines. *)
Example documented_run :
  main (map Some [0x40010c07; 0x10100868; 0x1000036e; 0x103002aa;
                  0x10110868; 0x10010417; 0x10310317; 0xc18d01bd])
  = text "0x40010c07 module_header, module_id=0x01, module_setting=0x3, data_length=7 words"
    ++ [newline]
    ++ text "0x10100868 data_word, channel_address=16, mdpp_flags=0x0"
    ++ [newline]
    ++ text "0x1000036e data_word, channel_address= 0, mdpp_flags=0x0"
    ++ [newline]
    ++ text "0x103002aa data_word, channel_address=48, mdpp_flags=0x0"
    ++ [newline]
    ++ text "0x10110868 data_word, channel_address=17, mdpp_flags=0x0"
    ++ [newline]
    ++ text "0x10010417 data_word, channel_address= 1, mdpp_flags=0x0"
    ++ [newline]
    ++ text "0x10310317 data_word, channel_address=49, mdpp_flags=0x0"
    ++ [newline]
    ++ text "0xc18d01bd end_of_event, low_stamp=26018237"
    ++ [newline].
Proof. reflexivity. Qed.

(** A word that matches no pattern is printed with its trailing space and
    nothing else. *)
Example unrecognized_line :
  print_line (decode_mesytec_vme_word 0x20000000)
  = text "0x20000000 " ++ [newline].
Proof. reflexivity. Qed.
